(** * ksm: the userspace physical memory sandbox (sandbox.c)

    A shallow embedding of [sandbox.c] of the ksm hypervisor: the task
    registry, the copy-on-write page store, the EPT violation handler and
    the CR3 load handler, with the statements of the specification settled
    against it.

    Conventions.
    - C integers ([u64], [u16], [u8], [pid_t], [int]) are [Z]; the code
      only compares them and combines them with [&], [|] and [>>], written
      here with [Z.land], [Z.lor] and [Z.shiftr].
    - A pointer is the [Z] it holds, [0] being [NULL]. A [struct sa_task]
      and a [struct cow_page] carry the address of their own storage
      ([sa_self], [cow_self]), which is what the code hands back to the
      allocator.
    - The intrusive lists [k->task_list] and [task->pages] are Rocq lists
      of the records they link.
    - The handlers run on the core that trapped: the [vcpu] (and the [ept]
      inside it) they are given is that core's, so one index [cpu] stands
      for the [vcpu] pointer and for [cpu_nr()].
    - [BUG_ON] halts the core: a handler returns [Bug], as it does where C
      defines nothing (a slot outside [eptp], a view that does not exist).
    - Values lie within the range of their C type; the code does no
      arithmetic on them, so nothing wraps. *)

From stdpp Require Import base decidable option numbers list gmap.

Local Open Scope Z_scope.

(** ** What [ksm.h] and [mm.h] declare

    The headers are not part of the sources read here; their constants and
    the pure helpers of the kernel are taken as parameters. *)

Class ksm_h := {
  KSM_MAX_VCPUS : nat;        (* length of [sa_task.eptp] *)
  EPT_MAX_EPTP_LIST : Z;      (* also the mark of an unassigned slot *)
  EPTP_DEFAULT : Z;           (* the shared default view *)
  EPT_ACCESS_WRITE : Z;
  EPT_ACCESS_RX : Z;
  PAGE_USER : Z;
  PAGE_PA_MASK : Z;
  PAGE_SHIFT : Z;
  PAGE_SIZE : Z;
  ERR_NOMEM : Z;
  EINVAL : Z;
  ENOENT : Z
}.

Class kernel := {
  (* [__pa(va)]: the physical address behind a kernel virtual address *)
  __pa : Z → Z;
  (* [pte_from_cr3_va(pgd, gva)]: the guest's own page table entry, [None]
     for a [NULL] result, otherwise the value of [pte->pte] *)
  pte_from_cr3_va : Z → Z → option Z;
  (* [find_vpid(pid)], [pid_task(.., PIDTYPE_PID)] and [tsk->mm->pgd] *)
  find_vpid : Z → option Z;
  pid_task : Z → option Z;
  tsk_mm_pgd : Z → Z
}.

(** ** Data model *)

Record cow_page := {
  cow_self : Z;   (* address of the record itself *)
  cow_gpa : Z;
  cow_hpa : Z;
  cow_hva : Z
}.

Record sa_task := {
  sa_self : Z;    (* address of the record itself *)
  sa_pid : Z;
  sa_pgd : Z;
  sa_eptp : list Z;           (* [u16 eptp[KSM_MAX_VCPUS]] *)
  sa_pages : list cow_page
}.

Global Instance cow_page_eq_dec : EqDecision cow_page.
Proof. solve_decision. Defined.

Global Instance sa_task_eq_dec : EqDecision sa_task.
Proof. solve_decision. Defined.

Inductive outcome (A : Type) : Type :=
  | Ret (a : A)
  | Bug.
Arguments Ret {A} a.
Arguments Bug {A}.

(** ** The memory collaborator *)

Record window := { w_hva : Z; w_gpa : Z; w_size : Z }.

(** Modelled from the spec: the physical memory allocator of [mm.h]
    (allocate and free a fixed-size page, allocate and free a fixed-size
    record, temporarily map and unmap a guest physical frame).  The state
    lists what is outstanding of each kind.  [mm_supply] holds the pointers
    the coming allocation calls return, in order, [0] for a failed call, so
    that every pattern of failures can be played. *)
Record mm_state := {
  mm_supply : list Z;
  mm_windows : list window;   (* mm_remap, not yet mm_unmap *)
  mm_pool : list Z;           (* mm_alloc_pool, not yet __mm_free_pool *)
  mm_pages : list Z;          (* mm_alloc_page, not yet mm_free_page *)
  mm_host : Z → Z;            (* bytes of host memory *)
  mm_guest : Z → Z            (* bytes of guest physical memory *)
}.

(** Modelled from the spec: the pointer the next allocation call gets;
    [NULL] once the supply is used up. *)
Definition mm_next (m : mm_state) : Z * mm_state :=
  match mm_supply m with
  | [] => (0, m)
  | p :: rest =>
      (p, {| mm_supply := rest; mm_windows := mm_windows m;
             mm_pool := mm_pool m; mm_pages := mm_pages m;
             mm_host := mm_host m; mm_guest := mm_guest m |})
  end.

(** Modelled from the spec: handing [a] back to the allocator takes one
    entry for [a] off the list of what is outstanding. *)
Fixpoint release (a : Z) (l : list Z) : list Z :=
  match l with
  | [] => []
  | x :: l' => if decide (x = a) then l' else x :: release a l'
  end.

(** Modelled from the spec: the same for the window mapped at [h]. *)
Fixpoint release_window (h : Z) (l : list window) : list window :=
  match l with
  | [] => []
  | w :: l' => if decide (w_hva w = h) then l' else w :: release_window h l'
  end.

(** Modelled from the spec: [mm_remap(gpa, size)] maps the guest frame
    into a window of host addresses, or returns [NULL]. *)
Definition mm_remap (gpa size : Z) (m : mm_state) : Z * mm_state :=
  let '(h, m1) := mm_next m in
  if decide (h = 0) then (0, m1)
  else (h, {| mm_supply := mm_supply m1;
              mm_windows := {| w_hva := h; w_gpa := gpa; w_size := size |}
                              :: mm_windows m1;
              mm_pool := mm_pool m1; mm_pages := mm_pages m1;
              mm_host := mm_host m1; mm_guest := mm_guest m1 |}).

(** Modelled from the spec: [mm_unmap(h, size)] releases the window. *)
Definition mm_unmap (h size : Z) (m : mm_state) : mm_state :=
  {| mm_supply := mm_supply m;
     mm_windows := release_window h (mm_windows m);
     mm_pool := mm_pool m; mm_pages := mm_pages m;
     mm_host := mm_host m; mm_guest := mm_guest m |}.

(** Modelled from the spec: [mm_alloc_pool(size)] allocates a record, or
    returns [NULL]. *)
Definition mm_alloc_pool (m : mm_state) : Z * mm_state :=
  let '(p, m1) := mm_next m in
  if decide (p = 0) then (0, m1)
  else (p, {| mm_supply := mm_supply m1; mm_windows := mm_windows m1;
              mm_pool := p :: mm_pool m1; mm_pages := mm_pages m1;
              mm_host := mm_host m1; mm_guest := mm_guest m1 |}).

(** Modelled from the spec: [__mm_free_pool(p)] frees a record. *)
Definition __mm_free_pool (p : Z) (m : mm_state) : mm_state :=
  {| mm_supply := mm_supply m; mm_windows := mm_windows m;
     mm_pool := release p (mm_pool m); mm_pages := mm_pages m;
     mm_host := mm_host m; mm_guest := mm_guest m |}.

(** Modelled from the spec: [mm_alloc_page()] allocates a page, or
    returns [NULL]. *)
Definition mm_alloc_page (m : mm_state) : Z * mm_state :=
  let '(p, m1) := mm_next m in
  if decide (p = 0) then (0, m1)
  else (p, {| mm_supply := mm_supply m1; mm_windows := mm_windows m1;
              mm_pool := mm_pool m1; mm_pages := p :: mm_pages m1;
              mm_host := mm_host m1; mm_guest := mm_guest m1 |}).

(** Modelled from the spec: [mm_free_page(p)] frees a page; it knows
    nothing of records. *)
Definition mm_free_page (p : Z) (m : mm_state) : mm_state :=
  {| mm_supply := mm_supply m; mm_windows := mm_windows m;
     mm_pool := mm_pool m; mm_pages := release p (mm_pages m);
     mm_host := mm_host m; mm_guest := mm_guest m |}.

(** Modelled from the spec: a host address inside a window reads the
    guest frame mapped there, any other one reads host memory. *)
Definition in_window (a : Z) (w : window) : bool :=
  bool_decide (w_hva w ≤ a < w_hva w + w_size w).

(** Modelled from the spec: the byte a read of host address [a] gets. *)
Definition mm_load (m : mm_state) (a : Z) : Z :=
  match List.find (in_window a) (mm_windows m) with
  | Some w => mm_guest m (w_gpa w + (a - w_hva w))
  | None => mm_host m a
  end.

(** Modelled from the spec: [memcpy(dst, src, n)] into host memory, for
    areas that do not overlap: every byte of the destination receives the
    byte read at the same offset of the source. *)
Definition memcpy (dst src n : Z) (m : mm_state) : mm_state :=
  {| mm_supply := mm_supply m; mm_windows := mm_windows m;
     mm_pool := mm_pool m; mm_pages := mm_pages m;
     mm_host := λ a, if bool_decide (dst ≤ a < dst + n)
                     then mm_load m (src + (a - dst)) else mm_host m a;
     mm_guest := mm_guest m |}.

(** Modelled from the spec: [list_add] of the list helpers, which are not
    part of the sources: the record is appended to the list. *)
Definition list_add {A} (head : list A) (node : A) : list A := head ++ [node].

(** Modelled from the spec: [list_del] of the same helpers unlinks the
    node from the list it is on. *)
Fixpoint list_del {A} `{EqDecision A} (node : A) (l : list A) : list A :=
  match l with
  | [] => []
  | x :: l' => if decide (x = node) then l' else x :: list_del node l'
  end.

(** ** The EPT collaborator *)

Record epte := { epte_ar : Z; epte_pfn : Z }.

(** Modelled from the spec: the EPT subsystem of [ksm.h] and [ept.c]
    (create an isolated view with a base access policy, which returns its
    identifier; free a view; read and modify the access rights and the
    target frame of a view's entry for a guest physical address).  A view
    maps every frame to itself with the base access until an entry is
    written; identifiers are the indices below [EPT_MAX_EPTP_LIST], the
    value the code keeps for an unassigned slot. *)
Record ept_view := { view_access : Z; view_entries : gmap Z epte }.

Record ept := { ptr_list : gmap Z ept_view }.

Record vcpu := { vcpu_ept : ept; root_eptp : Z }.

Record ksm := { task_list : list sa_task; vcpu_list : list vcpu }.

(** Modelled from the spec: a view fresh from its creation. *)
Definition new_view (access : Z) : ept_view :=
  {| view_access := access; view_entries := ∅ |}.

Section Sandbox.
Context `{ksm_h} `{kernel}.

(** Modelled from the spec: [ept_create_ptr(ept, access, &id)] creates a
    view under the first identifier that is free; [None] is its [false],
    when none is. *)
Definition ept_create_ptr (e : ept) (access : Z) : option (Z * ept) :=
  match list_find (λ i, ptr_list e !! i = None)
                  (seqZ 0 EPT_MAX_EPTP_LIST) with
  | Some (_, id) =>
      Some (id, {| ptr_list := <[id := new_view access]> (ptr_list e) |})
  | None => None
  end.

(** Modelled from the spec: [ept_free_ptr(ept, id)] frees the view [id]
    of [ept]. *)
Definition ept_free_ptr (e : ept) (id : Z) : ept :=
  {| ptr_list := delete id (ptr_list e) |}.

(** Modelled from the spec: [ept_pte(EPT4(ept, id), gpa)], the entry of
    view [id] for the frame of [gpa]; [None] when the view does not
    exist. *)
Definition ept_pte (e : ept) (id gpa : Z) : option epte :=
  match ptr_list e !! id with
  | Some v =>
      let gfn := Z.shiftr gpa PAGE_SHIFT in
      Some (default {| epte_ar := view_access v; epte_pfn := gfn |}
                    (view_entries v !! gfn))
  | None => None
  end.

(** Modelled from the spec: a store through the pointer [ept_pte]
    returned. *)
Definition store_epte (e : ept) (id gpa : Z) (x : epte) : ept :=
  match ptr_list e !! id with
  | Some v =>
      {| ptr_list :=
           <[id := {| view_access := view_access v;
                      view_entries :=
                        <[Z.shiftr gpa PAGE_SHIFT := x]> (view_entries v) |}]>
             (ptr_list e) |}
  | None => e
  end.

(** Modelled from the spec: [__set_epte_ar] sets the access rights of an
    entry, [__set_epte_ar_pfn] its access rights and its frame. *)
Definition __set_epte_ar (x : epte) (ar : Z) : epte :=
  {| epte_ar := ar; epte_pfn := epte_pfn x |}.

(** Modelled from the spec: see [__set_epte_ar]. *)
Definition __set_epte_ar_pfn (x : epte) (ar pfn : Z) : epte :=
  {| epte_ar := ar; epte_pfn := pfn |}.

(** Modelled from the spec: [vcpu_switch_root_eptp(vcpu, id)] sets the
    view the core runs on. *)
Definition vcpu_switch_root_eptp (v : vcpu) (id : Z) : vcpu :=
  {| vcpu_ept := vcpu_ept v; root_eptp := id |}.

(** ** sandbox.c *)

Definition with_tasks (k : ksm) (l : list sa_task) : ksm :=
  {| task_list := l; vcpu_list := vcpu_list k |}.

Definition with_vcpu (k : ksm) (cpu : nat) (v : vcpu) : ksm :=
  {| task_list := task_list k; vcpu_list := <[cpu := v]> (vcpu_list k) |}.

Definition with_pages (t : sa_task) (l : list cow_page) : sa_task :=
  {| sa_self := sa_self t; sa_pid := sa_pid t; sa_pgd := sa_pgd t;
     sa_eptp := sa_eptp t; sa_pages := l |}.

Definition with_eptp (t : sa_task) (cpu : nat) (id : Z) : sa_task :=
  {| sa_self := sa_self t; sa_pid := sa_pid t; sa_pgd := sa_pgd t;
     sa_eptp := <[cpu := id]> (sa_eptp t); sa_pages := sa_pages t |}.

(** [task->eptp[cpu_nr()]]; [None] outside the array, where C defines
    nothing. *)
Definition task_eptp (cpu : nat) (task : sa_task) : option Z :=
  sa_eptp task !! cpu.

(** [list_del], [mm_free_page(page->hva)], [mm_free_page(page)]. *)
Definition free_cow_page (page : cow_page)
    (st : list cow_page * mm_state) : list cow_page * mm_state :=
  let '(pages, m) := st in
  (list_del page pages,
   mm_free_page (cow_self page) (mm_free_page (cow_hva page) m)).

(** Modelled from the spec: [ksm_cpu(k)] of [ksm.h], the vcpu of the core
    the code runs on (the per-core context); it is given no index. *)
Definition ksm_cpu (k : ksm) (cpu : nat) : option vcpu := vcpu_list k !! cpu.

(** The body of the first loop of [__free_sa_task] for slot [i]: the view
    is freed in [&ksm_cpu(k)->ept], whichever the slot. *)
Definition free_task_view (cpu : nat) (task : sa_task) (k : ksm) (i : nat)
    : ksm :=
  match sa_eptp task !! i with
  | Some id =>
      if decide (id = EPT_MAX_EPTP_LIST) then k
      else match ksm_cpu k cpu with
           | Some v =>
               with_vcpu k cpu {| vcpu_ept := ept_free_ptr (vcpu_ept v) id;
                                  root_eptp := root_eptp v |}
           | None => k
           end
  | None => k
  end.

(** [__free_sa_task].  The task's storage is released at the end, so the
    page list the second loop empties is not kept. *)
Definition __free_sa_task (cpu : nat) (task : sa_task)
    (st : ksm * mm_state) : ksm * mm_state :=
  let '(k, m) := st in
  let k1 := foldl (free_task_view cpu task) k (seq 0 KSM_MAX_VCPUS) in
  let '(_, m1) :=
    foldl (λ st page, free_cow_page page st) (sa_pages task, m)
          (sa_pages task) in
  (k1, __mm_free_pool (sa_self task) m1).

Definition free_sa_task (cpu : nat) (task : sa_task)
    (st : ksm * mm_state) : ksm * mm_state :=
  let '(k, m) := st in
  __free_sa_task cpu task (with_tasks k (list_del task (task_list k)), m).

Definition ksm_sandbox_init (k : ksm) : Z * ksm := (0, with_tasks k []).

(** [ksm_sandbox_exit]: the tasks are neither unlinked nor is the head
    reset, so [k->task_list] is left as it was. *)
Definition ksm_sandbox_exit (cpu : nat) (k : ksm) (m : mm_state)
    : Z * (ksm * mm_state) :=
  (0, foldl (λ st task, __free_sa_task cpu task st) (k, m) (task_list k)).

Definition create_sa_task (k : ksm) (m : mm_state) (pid pgd : Z)
    : Z * (ksm * mm_state) :=
  let '(task, m1) := mm_alloc_pool m in
  if decide (task = 0) then (ERR_NOMEM, (k, m1))
  else
    let t := {| sa_self := task; sa_pid := pid; sa_pgd := pgd;
                sa_eptp := replicate KSM_MAX_VCPUS EPT_MAX_EPTP_LIST;
                sa_pages := [] |} in
    (0, (with_tasks k (list_add (task_list k) t), m1)).

Definition ksm_sandbox_copy_page (task : sa_task) (gpa : Z) (m : mm_state)
    : option cow_page * sa_task * mm_state :=
  let '(h, m1) := mm_remap gpa PAGE_SIZE m in
  if decide (h = 0) then (None, task, m1)
  else
    let '(page, m2) := mm_alloc_pool m1 in
    if decide (page = 0) then (None, task, mm_unmap h PAGE_SIZE m2)
    else
      let '(hva, m3) := mm_alloc_page m2 in
      if decide (hva = 0)
      then (None, task, mm_unmap h PAGE_SIZE (__mm_free_pool page m3))
      else
        let m4 := memcpy hva h PAGE_SIZE m3 in
        let p := {| cow_self := page; cow_gpa := gpa;
                    cow_hpa := __pa hva; cow_hva := hva |} in
        (Some p, with_pages task (list_add (sa_pages task) p), m4).

(** The [__linux__] branch of [ksm_sandbox]. *)
Definition ksm_sandbox (k : ksm) (m : mm_state) (pid : Z)
    : Z * (ksm * mm_state) :=
  match find_vpid pid with
  | None => (- EINVAL, (k, m))
  | Some tsk_pid =>
      match pid_task tsk_pid with
      | None => (- ENOENT, (k, m))
      | Some tsk =>
          create_sa_task k m pid (Z.land (__pa (tsk_mm_pgd tsk)) PAGE_PA_MASK)
      end
  end.

(** The lookups return the task found and its place on the list, which
    is what the pointer they return stands for. *)
Definition find_sa_task (k : ksm) (pid : Z) : option (nat * sa_task) :=
  list_find (λ task, sa_pid task = pid) (task_list k).

Definition find_sa_task_pgd (k : ksm) (pgd : Z) : option (nat * sa_task) :=
  list_find (λ task, sa_pgd task = pgd) (task_list k).

Definition b2z (b : bool) : Z := if b then 1 else 0.

(** [pte && pte->pte & PAGE_USER] *)
Definition user_pte (pte : option Z) : bool :=
  match pte with
  | Some v => negb (Z.land v PAGE_USER =? 0)
  | None => false
  end.

(** [u_pte != gva && ac && !u_pte & EPT_ACCESS_WRITE], which C reads as
    [(u_pte != gva) && ac && ((!u_pte) & EPT_ACCESS_WRITE)]. *)
Definition cow_test (u_pte : bool) (gva ac : Z) : bool :=
  negb (b2z u_pte =? gva)
  && negb (ac =? 0)
  && negb (Z.land (b2z (negb u_pte)) EPT_ACCESS_WRITE =? 0).

Record ept_exit := {
  handled : bool;           (* the value returned *)
  invd : bool;              (* [*invd] *)
  eptp_switch : Z;          (* [*eptp_switch] *)
  exit_ksm : ksm;
  exit_mm : mm_state
}.

(** [invd0] and [switch0] are what [*invd] and [*eptp_switch] hold on
    entry. *)
Definition ksm_sandbox_handle_ept (cpu : nat) (proc_pid : Z)
    (dpl gpa gva curr ar ac : Z) (invd0 : bool) (switch0 : Z)
    (k : ksm) (m : mm_state) : outcome ept_exit :=
  match find_sa_task k proc_pid with
  | None =>
      Ret {| handled := true; invd := invd0; eptp_switch := EPTP_DEFAULT;
             exit_ksm := k; exit_mm := m |}
  | Some (i, task) =>
      match task_eptp cpu task, vcpu_list k !! cpu with
      | Some eptp, Some v =>
          if decide (eptp = EPT_MAX_EPTP_LIST) then Bug
          else
            match ept_pte (vcpu_ept v) curr gpa with
            | None => Bug
            | Some epte =>
                if decide (eptp ≠ curr) then Bug
                else
                  let pte := pte_from_cr3_va (sa_pgd task) gva in
                  let u_pte := user_pte pte in
                  let u_access := negb (dpl =? 0) in
                  if cow_test u_pte gva ac then
                    match ksm_sandbox_copy_page task gpa m with
                    | (None, _, m1) =>
                        Ret {| handled := false; invd := invd0;
                               eptp_switch := switch0;
                               exit_ksm := k; exit_mm := m1 |}
                    | (Some page, task1, m1) =>
                        let x := __set_epte_ar_pfn epte (Z.lor ar ac)
                                   (Z.shiftr (cow_hpa page) PAGE_SHIFT) in
                        let v1 := {| vcpu_ept :=
                                       store_epte (vcpu_ept v) curr gpa x;
                                     root_eptp := root_eptp v |} in
                        Ret {| handled := true; invd := true;
                               eptp_switch := switch0;
                               exit_ksm :=
                                 with_vcpu
                                   (with_tasks k (<[i := task1]> (task_list k)))
                                   cpu v1;
                               exit_mm := m1 |}
                    end
                  else
                    let x := __set_epte_ar epte (Z.lor ar ac) in
                    let v1 := {| vcpu_ept :=
                                   store_epte (vcpu_ept v) curr gpa x;
                                 root_eptp := root_eptp v |} in
                    Ret {| handled := true; invd := true;
                           eptp_switch := switch0;
                           exit_ksm := with_vcpu k cpu v1; exit_mm := m |}
            end
      | _, _ => Bug
      end
  end.

Definition ksm_sandbox_handle_cr3 (cpu : nat) (cr3 : Z) (k : ksm)
    : outcome ksm :=
  let pgd := Z.land cr3 PAGE_PA_MASK in
  match vcpu_list k !! cpu with
  | None => Bug
  | Some v =>
      match find_sa_task_pgd k pgd with
      | Some (i, task) =>
          match task_eptp cpu task with
          | None => Bug
          | Some eptp =>
              if decide (eptp = EPT_MAX_EPTP_LIST) then
                match ept_create_ptr (vcpu_ept v) EPT_ACCESS_RX with
                | None => Bug
                | Some (id, e1) =>
                    let v1 := {| vcpu_ept := e1; root_eptp := root_eptp v |} in
                    Ret (with_vcpu
                           (with_tasks k
                              (<[i := with_eptp task cpu id]> (task_list k)))
                           cpu (vcpu_switch_root_eptp v1 id))
                end
              else Ret (with_vcpu k cpu (vcpu_switch_root_eptp v eptp))
          end
      | None => Ret (with_vcpu k cpu (vcpu_switch_root_eptp v EPTP_DEFAULT))
      end
  end.

End Sandbox.

(** ** Notions the statements use *)

Section Notions.
Context `{ksm_h} `{kernel}.

(** The trigger of the copy branch in the words of the specification:
    the access is a write, the requester has user privilege, the guest's
    own page tables do not grant user access at the address, and the
    view has not granted write access to the page yet. *)
Definition spec_cow_trigger (dpl ar ac : Z) (u_pte : bool) : bool :=
  negb (Z.land ac EPT_ACCESS_WRITE =? 0)
  && negb (dpl =? 0)
  && negb u_pte
  && (Z.land ar EPT_ACCESS_WRITE =? 0).

(** The registry is well formed when every task has a slot per core and
    a record of its own that the allocator still counts as handed out. *)
Definition registry_wf (k : ksm) (m : mm_state) : Prop :=
  Forall (λ t, length (sa_eptp t) = KSM_MAX_VCPUS) (task_list k)
  ∧ NoDup (sa_self <$> task_list k)
  ∧ Forall (λ t, sa_self t ∈ mm_pool m) (task_list k).

(** The allocator does not hand out storage that is still in use. *)
Definition supply_fresh (m : mm_state) : Prop :=
  ∀ p, head (mm_supply m) = Some p → p ∉ mm_pool m.

(** A sequence of CR3 loads, each on the core it names. *)
Fixpoint cr3_loads (l : list (nat * Z)) (k : ksm) : outcome ksm :=
  match l with
  | [] => Ret k
  | (cpu, cr3) :: l' =>
      match ksm_sandbox_handle_cr3 cpu cr3 k with
      | Ret k1 => cr3_loads l' k1
      | Bug => Bug
      end
  end.

(** The views of a core and the view it runs on. *)
Definition views_of (k : ksm) (cpu : nat) : option ept :=
  vcpu_ept <$> vcpu_list k !! cpu.

Definition active_view (k : ksm) (cpu : nat) : option Z :=
  root_eptp <$> vcpu_list k !! cpu.

(** The task a lookup by [pgd] finds has the view [id] assigned on core
    [cpu], a core that exists. *)
Definition slot_bound (k : ksm) (pgd : Z) (cpu : nat) (id : Z) : Prop :=
  ∃ i t, find_sa_task_pgd k pgd = Some (i, t)
         ∧ task_eptp cpu t = Some id
         ∧ id ≠ EPT_MAX_EPTP_LIST
         ∧ is_Some (vcpu_list k !! cpu).


(** What the hypervisor hands to the subsystem: a registration, a CR3
    load on a core, an EPT violation on a core (with what [*invd] and
    [*eptp_switch] hold on entry). *)
Inductive event : Type :=
  | EvSandbox (pid : Z)
  | EvCr3 (cpu : nat) (cr3 : Z)
  | EvEpt (cpu : nat) (proc_pid : Z) (dpl gpa gva curr ar ac : Z)
          (invd0 : bool) (switch0 : Z).

(** One event; the value [ksm_sandbox] returns goes to its caller and
    does not bear on the state. *)
Definition step (ev : event) (st : ksm * mm_state)
    : outcome (ksm * mm_state) :=
  let '(k, m) := st in
  match ev with
  | EvSandbox pid => Ret (ksm_sandbox k m pid).2
  | EvCr3 cpu cr3 =>
      match ksm_sandbox_handle_cr3 cpu cr3 k with
      | Ret k1 => Ret (k1, m)
      | Bug => Bug
      end
  | EvEpt cpu proc_pid dpl gpa gva curr ar ac invd0 switch0 =>
      match ksm_sandbox_handle_ept cpu proc_pid dpl gpa gva curr ar ac
              invd0 switch0 k m with
      | Ret r => Ret (exit_ksm r, exit_mm r)
      | Bug => Bug
      end
  end.

(** A run of events, up to the first [BUG_ON] that fires. *)
Fixpoint run (evs : list event) (st : ksm * mm_state)
    : outcome (ksm * mm_state) :=
  match evs with
  | [] => Ret st
  | ev :: evs' =>
      match step ev st with
      | Ret st1 => run evs' st1
      | Bug => Bug
      end
  end.

(** Core [cpu] exists and has the view [id]. *)
Definition view_live (k : ksm) (cpu : nat) (id : Z) : Prop :=
  ∃ v, vcpu_list k !! cpu = Some v ∧ is_Some (ptr_list (vcpu_ept v) !! id).

(** The slot of core [cpu] in the task at place [i] of the registry. *)
Definition slot_of (k : ksm) (i cpu : nat) : option Z :=
  task_list k !! i ≫= task_eptp cpu.

(** The bookkeeping of views is sound: every core has the default view;
    a slot that is assigned names a view its core has, which is not the
    default view; and two tasks never share a view on a core. *)
Definition views_inv (k : ksm) : Prop :=
  (∀ cpu, (cpu < length (vcpu_list k))%nat → view_live k cpu EPTP_DEFAULT)
  ∧ (∀ i cpu id,
       slot_of k i cpu = Some id → id ≠ EPT_MAX_EPTP_LIST →
       view_live k cpu id ∧ id ≠ EPTP_DEFAULT)
  ∧ (∀ i j cpu id,
       slot_of k i cpu = Some id → slot_of k j cpu = Some id →
       id ≠ EPT_MAX_EPTP_LIST → i = j).

(** [id] is in one of the slots the first loop of [__free_sa_task] goes
    through for [task], and is not the mark of an unassigned slot. *)
Definition freed_by (task : sa_task) (id : Z) : Prop :=
  id ≠ EPT_MAX_EPTP_LIST
  ∧ ∃ i, (i < KSM_MAX_VCPUS)%nat ∧ sa_eptp task !! i = Some id.

End Notions.

(** ** A configuration to run the code on

    The access bits are those of an EPT entry (read 1, write 2, execute
    4), [PAGE_USER] is the user bit of a page table entry, pages are 4 KiB;
    the number of cores is kept small. *)

Definition x86_64 : ksm_h := {|
  KSM_MAX_VCPUS := 4;
  EPT_MAX_EPTP_LIST := 512;
  EPTP_DEFAULT := 0;
  EPT_ACCESS_WRITE := 2;
  EPT_ACCESS_RX := 5;
  PAGE_USER := 4;
  PAGE_PA_MASK := 0xFFFFFFFFF000;
  PAGE_SHIFT := 12;
  PAGE_SIZE := 4096;
  ERR_NOMEM := -12;
  EINVAL := 22;
  ENOENT := 2
|}.

(** A guest with one process, pid 42, whose page directory is at physical
    0x1000; its page at 0x401000 is a user page, the one at 0x402000 is
    not. *)
Definition guest : kernel := {|
  __pa := λ va, va - 0xffff880000000000;
  pte_from_cr3_va := λ pgd gva,
    if decide (gva = 0x401000) then Some 0x5067
    else if decide (gva = 0x402000) then Some 0x2063
    else None;
  find_vpid := λ pid, if decide (pid = 42) then Some 0xffff880000100000 else None;
  pid_task := λ p,
    if decide (p = 0xffff880000100000) then Some 0xffff880000200000 else None;
  tsk_mm_pgd := λ _, 0xffff880000001000
|}.

Definition mm_boot (supply : list Z) : mm_state := {|
  mm_supply := supply; mm_windows := []; mm_pool := []; mm_pages := [];
  mm_host := λ _, 0; mm_guest := λ a, a `mod` 251
|}.

Definition boot_vcpu : vcpu :=
  {| vcpu_ept := {| ptr_list := {[ 0 := new_view 7 ]} |}; root_eptp := 0 |}.

Definition k_boot : ksm :=
  {| task_list := []; vcpu_list := [boot_vcpu; boot_vcpu] |}.

(** The record of pid 42 once registered, with the slots [eptp] and the
    pages [l]. *)
Definition task42 (eptp : list Z) (l : list cow_page) : sa_task :=
  {| sa_self := 0xffff880000300000; sa_pid := 42; sa_pgd := 0x1000;
     sa_eptp := eptp; sa_pages := l |}.

Definition rx_vcpu : vcpu :=
  {| vcpu_ept := {| ptr_list := {[ 0 := new_view 7; 1 := new_view 5 ]} |};
     root_eptp := 1 |}.

(** pid 42 registered and running on core 0 in its own view. *)
Definition k_core0 : ksm :=
  {| task_list := [task42 [1; 512; 512; 512] []];
     vcpu_list := [rx_vcpu; boot_vcpu] |}.

(** pid 42 registered and running on core 1 in its own view. *)
Definition k_core1 : ksm :=
  {| task_list := [task42 [512; 1; 512; 512] []];
     vcpu_list := [boot_vcpu; rx_vcpu] |}.

Definition mm_task42 (supply : list Z) : mm_state := {|
  mm_supply := supply; mm_windows := [];
  mm_pool := [0xffff880000300000]; mm_pages := [];
  mm_host := λ _, 0; mm_guest := λ a, a `mod` 251
|}.

(** pid 42 registered, not yet run on any core. *)
Definition k_reg : ksm :=
  {| task_list := [task42 [512; 512; 512; 512] []];
     vcpu_list := [boot_vcpu; boot_vcpu] |}.

(** The pointers the allocator hands to one copy of a page, the window it
    maps and the record it fills for the frame at 0x2000. *)
Definition copy_supply : list Z :=
  [0xffffc90000000000; 0xffff880000400000; 0xffff880000500000].

Definition window_2000 : window :=
  {| w_hva := 0xffffc90000000000; w_gpa := 0x2000; w_size := 4096 |}.

Definition page_2000 : cow_page :=
  {| cow_self := 0xffff880000400000; cow_gpa := 0x2000;
     cow_hpa := 0x500000; cow_hva := 0xffff880000500000 |}.

(** pid 42 with its view on core 1 and a copy of the frame at 0x2000, and
    the allocator after that copy. *)
Definition k_paged : ksm :=
  {| task_list := [task42 [512; 1; 512; 512] [page_2000]];
     vcpu_list := [boot_vcpu; rx_vcpu] |}.

Definition mm_paged : mm_state :=
  (@ksm_sandbox_copy_page x86_64 guest (task42 [512; 1; 512; 512] [])
     0x2000 (mm_task42 copy_supply)).2.

(** Core 0 after the entry of its view 1 for the frame at 0x2000 has been
    widened to read, write and execute in place. *)
Definition widened_vcpu : vcpu :=
  {| vcpu_ept :=
       {| ptr_list :=
            {[ 0 := new_view 7;
               1 := {| view_access := 5;
                       view_entries :=
                         {[ 2 := {| epte_ar := 7; epte_pfn := 2 |} ]} |} ]} |};
     root_eptp := 1 |}.

(** pid 42 on core 0 after the fault of Scenario A has been answered. *)
Definition k_widened : ksm :=
  {| task_list := [task42 [1; 512; 512; 512] []];
     vcpu_list := [widened_vcpu; boot_vcpu] |}.

(** The same after pid 42 has run on core 1 as well. *)
Definition k_both : ksm :=
  {| task_list := [task42 [1; 1; 512; 512] []];
     vcpu_list := [widened_vcpu; rx_vcpu] |}.




(** pid 42 is registered, runs on core 0, writes to the frame at 0x2000,
    then runs on core 1. *)
Definition events_42 : list event :=
  [EvSandbox 42; EvCr3 0 0x1000;
   EvEpt 0 42 3 0x2000 0x402000 1 5 2 false 0; EvCr3 1 0x1000].

(** ** The copy-on-write page store *)

Section CopyPage.
Context `{ksm_h} `{kernel}.

Lemma release_head a l : release a (a :: l) = l.
Proof. simpl. by rewrite decide_True. Qed.

Lemma release_window_head h gpa size l :
  release_window h ({| w_hva := h; w_gpa := gpa; w_size := size |} :: l) = l.
Proof. simpl. by rewrite decide_True. Qed.

(** What a call whose three allocations succeed returns: [h], [page] and
    [hva] are the pointers [mm_remap], [mm_alloc_pool] and
    [mm_alloc_page] hand out. *)
Lemma ksm_sandbox_copy_page_ok task gpa m h page hva rest :
  mm_supply m = h :: page :: hva :: rest →
  h ≠ 0 → page ≠ 0 → hva ≠ 0 →
  let w := {| w_hva := h; w_gpa := gpa; w_size := PAGE_SIZE |} in
  let p := {| cow_self := page; cow_gpa := gpa;
              cow_hpa := __pa hva; cow_hva := hva |} in
  ∃ m',
    ksm_sandbox_copy_page task gpa m
      = (Some p, with_pages task (list_add (sa_pages task) p), m')
    ∧ mm_supply m' = rest
    ∧ mm_windows m' = w :: mm_windows m
    ∧ mm_pool m' = page :: mm_pool m
    ∧ mm_pages m' = hva :: mm_pages m
    ∧ mm_guest m' = mm_guest m
    ∧ (∀ i, 0 ≤ i < PAGE_SIZE → mm_host m' (hva + i) = mm_guest m (gpa + i))
    ∧ (∀ a, ¬ (hva ≤ a < hva + PAGE_SIZE) → mm_host m' a = mm_host m a).
Proof.
  intros Hs Hh Hp Ha w p.
  unfold ksm_sandbox_copy_page, mm_remap, mm_alloc_pool, mm_alloc_page,
    mm_next.
  rewrite Hs. simpl. repeat (case_decide; [done|]; simpl).
  eexists. split; [reflexivity|]. simpl. split_and!; try done.
  - intros i Hi. rewrite bool_decide_true by lia.
    unfold mm_load. simpl. unfold in_window at 1. simpl.
    rewrite bool_decide_true by lia. simpl. f_equal. lia.
  - intros a Hna. by rewrite bool_decide_false.
Qed.

(** A call returns [NULL] exactly when one of its three allocations
    does. *)
Lemma ksm_sandbox_copy_page_None task gpa m :
  (ksm_sandbox_copy_page task gpa m).1.1 = None ↔
  ¬ ∃ h page hva rest,
      mm_supply m = h :: page :: hva :: rest ∧ h ≠ 0 ∧ page ≠ 0 ∧ hva ≠ 0.
Proof.
  split.
  - intros Hn (h & page & hva & rest & Hs & Hh & Hp & Ha).
    destruct (ksm_sandbox_copy_page_ok task gpa m h page hva rest)
      as (m' & Heq & _); [done..|].
    rewrite Heq in Hn. done.
  - intros Hno.
    unfold ksm_sandbox_copy_page, mm_remap, mm_alloc_pool, mm_alloc_page,
      mm_next.
    destruct (mm_supply m) as [|h [|page [|hva rest]]]; simpl; try done;
      repeat (case_decide; simpl; try done).
    exfalso. apply Hno. eauto 10.
Qed.

(** C3: a call to [ksm_sandbox_copy_page] that fails, at whichever of
    its three allocations (the window, the record, the page), returns
    with everything it had acquired released: the windows, the records
    and the pages outstanding are those from before the call, memory is
    untouched, and the task, hence its page list, is as it was. *)
Theorem copy_page_failure_releases task gpa m task' m' :
  ksm_sandbox_copy_page task gpa m = (None, task', m') →
  task' = task
  ∧ mm_windows m' = mm_windows m
  ∧ mm_pool m' = mm_pool m
  ∧ mm_pages m' = mm_pages m
  ∧ mm_host m' = mm_host m
  ∧ mm_guest m' = mm_guest m.
Proof.
  unfold ksm_sandbox_copy_page, mm_remap, mm_alloc_pool, mm_alloc_page,
    mm_next.
  destruct (mm_supply m) as [|h [|page [|hva rest]]]; simpl;
    repeat (case_decide; simpl);
    intros [= <- <-]; simpl;
    repeat (rewrite decide_True by done); done.
Qed.



End CopyPage.

(** ** The EPT violation handler *)

Section HandleEpt.
Context `{ksm_h} `{kernel}.

(** [!u_pte] is 0 or 1, so the last operand of the test only sees bit 0
    of [EPT_ACCESS_WRITE]: where the write flag is another bit the test
    never holds. *)
Lemma cow_test_bit0 u_pte gva ac :
  Z.land 1 EPT_ACCESS_WRITE = 0 → cow_test u_pte gva ac = false.
Proof.
  intros Hw. unfold cow_test.
  destruct u_pte; simpl; rewrite ?Hw, ?andb_false_r; done.
Qed.

(** Whatever bit the write flag is, the test of the code is not the
    trigger of the specification: with bit 0 clear in the flag a user
    write that the specification has copied does not pass the test; with
    bit 0 set a write from privilege level 0 passes it. *)
Lemma cow_test_differs_from_spec :
  EPT_ACCESS_WRITE ≠ 0 →
  ∃ dpl gva ar ac u_pte,
    cow_test u_pte gva ac ≠ spec_cow_trigger dpl ar ac u_pte.
Proof.
  intros Hw. destruct (decide (Z.land 1 EPT_ACCESS_WRITE = 0)) as [Hb|Hb].
  - exists 3, 5, 0, EPT_ACCESS_WRITE, false.
    rewrite cow_test_bit0 by done. unfold spec_cow_trigger.
    rewrite Z.land_diag, Z.land_0_l. simpl.
    destruct (Z.eqb_spec EPT_ACCESS_WRITE 0); done.
  - exists 0, 5, 0, EPT_ACCESS_WRITE, false.
    unfold cow_test, spec_cow_trigger. simpl.
    destruct (Z.eqb_spec EPT_ACCESS_WRITE 0); [done|].
    destruct (Z.eqb_spec (Z.land 1 EPT_ACCESS_WRITE) 0); [done|].
    by rewrite andb_false_r.
Qed.

(** The copy branch, for a fault that passes the test of the code. *)
Lemma handle_ept_copy_branch cpu pid dpl gpa gva curr ar ac invd0 sw0 k m
    i task v x p task' m' :
  find_sa_task k pid = Some (i, task) →
  task_eptp cpu task = Some curr →
  curr ≠ EPT_MAX_EPTP_LIST →
  vcpu_list k !! cpu = Some v →
  ept_pte (vcpu_ept v) curr gpa = Some x →
  cow_test (user_pte (pte_from_cr3_va (sa_pgd task) gva)) gva ac = true →
  ksm_sandbox_copy_page task gpa m = (Some p, task', m') →
  ksm_sandbox_handle_ept cpu pid dpl gpa gva curr ar ac invd0 sw0 k m
  = Ret {| handled := true; invd := true; eptp_switch := sw0;
           exit_ksm :=
             with_vcpu (with_tasks k (<[i := task']> (task_list k))) cpu
               {| vcpu_ept :=
                    store_epte (vcpu_ept v) curr gpa
                      {| epte_ar := Z.lor ar ac;
                         epte_pfn := Z.shiftr (cow_hpa p) PAGE_SHIFT |};
                  root_eptp := root_eptp v |};
           exit_mm := m' |}.
Proof.
  intros Hf He Hne Hv Hx Ht Hc. unfold ksm_sandbox_handle_ept.
  rewrite Hf, He, Hv. rewrite decide_False by done. rewrite Hx.
  rewrite decide_False by (intros Hn; by apply Hn).
  rewrite Ht, Hc. done.
Qed.

(** The widen branch, for a fault that does not pass it. *)
Lemma handle_ept_widen_branch cpu pid dpl gpa gva curr ar ac invd0 sw0 k m
    i task v x :
  find_sa_task k pid = Some (i, task) →
  task_eptp cpu task = Some curr →
  curr ≠ EPT_MAX_EPTP_LIST →
  vcpu_list k !! cpu = Some v →
  ept_pte (vcpu_ept v) curr gpa = Some x →
  cow_test (user_pte (pte_from_cr3_va (sa_pgd task) gva)) gva ac = false →
  ksm_sandbox_handle_ept cpu pid dpl gpa gva curr ar ac invd0 sw0 k m
  = Ret {| handled := true; invd := true; eptp_switch := sw0;
           exit_ksm :=
             with_vcpu k cpu
               {| vcpu_ept :=
                    store_epte (vcpu_ept v) curr gpa
                      {| epte_ar := Z.lor ar ac; epte_pfn := epte_pfn x |};
                  root_eptp := root_eptp v |};
           exit_mm := m |}.
Proof.
  intros Hf He Hne Hv Hx Ht. unfold ksm_sandbox_handle_ept.
  rewrite Hf, He, Hv. rewrite decide_False by done. rewrite Hx.
  rewrite decide_False by (intros Hn; by apply Hn).
  rewrite Ht. done.
Qed.

(** With the write flag on another bit than bit 0, no fault is ever
    answered with a copy: the tasks, their page lists and the allocator
    are as before. *)
Lemma handle_ept_never_copies cpu pid dpl gpa gva curr ar ac invd0 sw0 k m r :
  Z.land 1 EPT_ACCESS_WRITE = 0 →
  ksm_sandbox_handle_ept cpu pid dpl gpa gva curr ar ac invd0 sw0 k m = Ret r →
  handled r = true
  ∧ task_list (exit_ksm r) = task_list k
  ∧ exit_mm r = m.
Proof.
  intros Hw. unfold ksm_sandbox_handle_ept.
  destruct (find_sa_task k pid) as [[i task]|]; [|by intros [= <-]].
  destruct (task_eptp cpu task) as [eptp|]; [|done].
  destruct (vcpu_list k !! cpu) as [v|]; [|done].
  case_decide; [done|].
  destruct (ept_pte (vcpu_ept v) curr gpa) as [x|]; [|done].
  case_decide; [done|].
  rewrite cow_test_bit0 by done. by intros [= <-].
Qed.

(** C4: an EPT violation raised while the running process has no task
    in the registry is answered with [true] and the order to switch to
    [EPTP_DEFAULT]; [*invd] keeps its value, and the registry, the page
    lists, the views and the allocator are left as they were. *)
Theorem handle_ept_unregistered
    cpu pid dpl gpa gva curr ar ac invd0 sw0 k m :
  Forall (λ t, sa_pid t ≠ pid) (task_list k) →
  ksm_sandbox_handle_ept cpu pid dpl gpa gva curr ar ac invd0 sw0 k m
  = Ret {| handled := true; invd := invd0; eptp_switch := EPTP_DEFAULT;
           exit_ksm := k; exit_mm := m |}.
Proof.
  intros Hno. unfold ksm_sandbox_handle_ept, find_sa_task.
  by rewrite (proj2 (list_find_None _ _) Hno).
Qed.

(** C9: the handler does not depend on the privilege level of the
    fault: two invocations that differ only in [dpl] take the same
    branch and end with the same return value, the same [*invd] and
    [*eptp_switch], and the same state. *)
Theorem handle_ept_dpl_irrelevant
    cpu pid dpl dpl' gpa gva curr ar ac invd0 sw0 k m :
  ksm_sandbox_handle_ept cpu pid dpl gpa gva curr ar ac invd0 sw0 k m
  = ksm_sandbox_handle_ept cpu pid dpl' gpa gva curr ar ac invd0 sw0 k m.
Proof.
  unfold ksm_sandbox_handle_ept.
  destruct (find_sa_task k pid) as [[i task]|]; [|done].
  destruct (task_eptp cpu task), (vcpu_list k !! cpu); try done.
Qed.

End HandleEpt.

(** ** The CR3 load handler *)

Section HandleCr3.
Context `{ksm_h} `{kernel}.

Lemma ept_create_ptr_Some e access id e' :
  ept_create_ptr e access = Some (id, e') →
  0 ≤ id < EPT_MAX_EPTP_LIST
  ∧ ptr_list e !! id = None
  ∧ e' = {| ptr_list := <[id := new_view access]> (ptr_list e) |}.
Proof.
  unfold ept_create_ptr.
  destruct (list_find _ _) as [[j x]|] eqn:Hf; [|done].
  intros [= <- <-]. apply list_find_Some in Hf as (Hj & Hx & _).
  apply list_elem_of_lookup_2, elem_of_seqZ in Hj. split_and!; [lia..|done|done].
Qed.

(** Rewriting a task in place without touching its [pgd] does not change
    which task a lookup by [pgd] finds. *)
Lemma find_pgd_insert (l : list sa_task) pgd i t j x y :
  list_find (λ task, sa_pgd task = pgd) l = Some (i, t) →
  l !! j = Some x → sa_pgd y = sa_pgd x →
  list_find (λ task, sa_pgd task = pgd) (<[j := y]> l)
  = Some (i, if decide (i = j) then y else t).
Proof.
  intros (Hi & Hp & Hleast)%list_find_Some Hj Hy.
  apply list_find_Some. case_decide as Hij.
  - subst j. assert (x = t) as -> by congruence. split_and!.
    + apply list_lookup_insert_eq. by eapply lookup_lt_Some.
    + congruence.
    + intros a z Ha Hlt. rewrite list_lookup_insert_ne in Ha by lia. eauto.
  - split_and!.
    + by rewrite list_lookup_insert_ne.
    + done.
    + intros a z Ha Hlt. destruct (decide (a = j)) as [->|Haj].
      * rewrite list_lookup_insert_eq in Ha by (by eapply lookup_lt_Some).
        injection Ha as <-. rewrite Hy. eauto.
      * rewrite list_lookup_insert_ne in Ha by done. eauto.
Qed.

Lemma views_of_with_vcpu_root k cpu v id c :
  vcpu_list k !! cpu = Some v →
  views_of (with_vcpu k cpu (vcpu_switch_root_eptp v id)) c = views_of k c.
Proof.
  intros Hv. unfold views_of, with_vcpu. simpl.
  destruct (decide (c = cpu)) as [->|Hne].
  - rewrite list_lookup_insert_eq by (by eapply lookup_lt_Some).
    by rewrite Hv.
  - by rewrite list_lookup_insert_ne.
Qed.

Lemma active_view_with_vcpu k (cpu : nat) v :
  (cpu < length (vcpu_list k))%nat →
  active_view (with_vcpu k cpu v) cpu = Some (root_eptp v).
Proof.
  intros Hlt. unfold active_view, with_vcpu. simpl.
  by rewrite list_lookup_insert_eq.
Qed.

Lemma active_view_with_vcpu_ne k cpu v c :
  c ≠ cpu → active_view (with_vcpu k cpu v) c = active_view k c.
Proof.
  intros Hne. unfold active_view, with_vcpu. simpl.
  by rewrite list_lookup_insert_ne.
Qed.

(** C6: a CR3 load whose page directory base belongs to no registered
    task switches the core to [EPTP_DEFAULT] and touches nothing else:
    the registry with every task record, slot and page list is the
    same, no view is created or freed on any core, and the other cores
    stay on the view they were on. *)
Theorem handle_cr3_unregistered cpu cr3 k v :
  vcpu_list k !! cpu = Some v →
  Forall (λ t, sa_pgd t ≠ Z.land cr3 PAGE_PA_MASK) (task_list k) →
  ∃ k',
    ksm_sandbox_handle_cr3 cpu cr3 k = Ret k'
    ∧ active_view k' cpu = Some EPTP_DEFAULT
    ∧ task_list k' = task_list k
    ∧ (∀ c, views_of k' c = views_of k c)
    ∧ (∀ c, c ≠ cpu → active_view k' c = active_view k c).
Proof.
  intros Hv Hno. unfold ksm_sandbox_handle_cr3, find_sa_task_pgd.
  rewrite Hv, (proj2 (list_find_None _ _) Hno).
  eexists. split; [done|]. split_and!.
  - apply active_view_with_vcpu. by eapply lookup_lt_Some.
  - done.
  - intros c. by apply views_of_with_vcpu_root.
  - intros c Hc. by apply active_view_with_vcpu_ne.
Qed.

(** The first load for a task establishes [slot_bound], whether it
    created the view or found one. *)
Lemma handle_cr3_binds cpu cr3 k k1 i t :
  find_sa_task_pgd k (Z.land cr3 PAGE_PA_MASK) = Some (i, t) →
  ksm_sandbox_handle_cr3 cpu cr3 k = Ret k1 →
  ∃ id, slot_bound k1 (Z.land cr3 PAGE_PA_MASK) cpu id
        ∧ active_view k1 cpu = Some id.
Proof.
  intros Hf. unfold ksm_sandbox_handle_cr3. rewrite Hf.
  destruct (vcpu_list k !! cpu) as [v|] eqn:Hv; [|done].
  destruct (task_eptp cpu t) as [e|] eqn:He; [|done].
  assert (cpu < length (vcpu_list k))%nat as Hlt by (by eapply lookup_lt_Some).
  case_decide as Hun.
  - destruct (ept_create_ptr _ _) as [[id e1]|] eqn:Hc; [|done].
    intros [= <-]. apply ept_create_ptr_Some in Hc as (Hid & _ & _).
    exists id. split.
    + exists i, (with_eptp t cpu id). unfold find_sa_task_pgd. simpl.
      pose proof Hf as (Hi & _)%list_find_Some.
      rewrite (find_pgd_insert _ _ i t i t) by done.
      rewrite decide_True by done. split_and!; [done| |lia|].
      * unfold task_eptp, with_eptp. simpl.
        apply list_lookup_insert_eq. by eapply lookup_lt_Some.
      * rewrite list_lookup_insert_eq by done. by eexists.
    + by rewrite active_view_with_vcpu.
  - intros [= <-]. exists e. split.
    + exists i, t. split_and!; [done..|]. simpl.
      rewrite list_lookup_insert_eq by done. by eexists.
    + by rewrite active_view_with_vcpu.
Qed.

(** No CR3 load, of whatever value and on whatever core, unbinds a slot. *)
Lemma handle_cr3_keeps_bound pgd cpu id c cr3 k k1 :
  slot_bound k pgd cpu id →
  ksm_sandbox_handle_cr3 c cr3 k = Ret k1 →
  slot_bound k1 pgd cpu id.
Proof.
  intros (i & t & Hf & He & Hid & Hcpu). unfold ksm_sandbox_handle_cr3.
  destruct (vcpu_list k !! c) as [v|] eqn:Hv; [|done].
  assert (∀ w, is_Some (vcpu_list (with_vcpu k c w) !! cpu)) as Hcpu'.
  { intros w. simpl. apply lookup_lt_is_Some. rewrite length_insert.
    by apply lookup_lt_is_Some. }
  destruct (find_sa_task_pgd k (Z.land cr3 PAGE_PA_MASK)) as [[j tj]|] eqn:Hj.
  - destruct (task_eptp c tj) as [e|] eqn:Hejc; [|done].
    case_decide as Hun.
    + destruct (ept_create_ptr _ _) as [[id' e1]|]; [|done].
      intros [= <-]. pose proof Hj as (Hjl & _)%list_find_Some.
      eexists i, _. unfold find_sa_task_pgd. simpl.
      rewrite (find_pgd_insert _ _ i t j tj) by done.
      split_and!; [done| |done|].
      * case_decide as Hij; [|done]. subst j.
        pose proof Hf as (Hil & _)%list_find_Some.
        assert (tj = t) as -> by congruence.
        unfold task_eptp, with_eptp. simpl.
        rewrite list_lookup_insert_ne; [done|].
        intros ->. unfold task_eptp in *. congruence.
      * apply lookup_lt_is_Some. rewrite length_insert.
        by apply lookup_lt_is_Some.
    + intros [= <-]. exists i, t. split_and!; [done..|]. apply Hcpu'.
  - intros [= <-]. exists i, t. split_and!; [done..|]. apply Hcpu'.
Qed.

Lemma cr3_loads_keep_bound pgd cpu id loads : ∀ k k1,
  slot_bound k pgd cpu id →
  cr3_loads loads k = Ret k1 →
  slot_bound k1 pgd cpu id.
Proof.
  induction loads as [|[c cr3] loads IH]; intros k k1 Hb; simpl.
  - by intros [= <-].
  - destruct (ksm_sandbox_handle_cr3 c cr3 k) as [k'|] eqn:Hstep; [|done].
    intros Hrest. eapply IH; [|done]. by eapply handle_cr3_keeps_bound.
Qed.

(** A load for a bound slot switches to its view and changes nothing
    else. *)
Lemma handle_cr3_bound cpu cr3 k id :
  slot_bound k (Z.land cr3 PAGE_PA_MASK) cpu id →
  ∃ k1,
    ksm_sandbox_handle_cr3 cpu cr3 k = Ret k1
    ∧ active_view k1 cpu = Some id
    ∧ (∀ c, views_of k1 c = views_of k c)
    ∧ task_list k1 = task_list k.
Proof.
  intros (i & t & Hf & He & Hid & [v Hv]). unfold ksm_sandbox_handle_cr3.
  rewrite Hv, Hf, He, decide_False by done.
  eexists. split; [done|]. split_and!; [|by intros; apply views_of_with_vcpu_root|done].
  apply active_view_with_vcpu. by eapply lookup_lt_Some.
Qed.

Lemma ept_create_ptr_free e access free :
  0 ≤ free < EPT_MAX_EPTP_LIST → ptr_list e !! free = None →
  is_Some (ept_create_ptr e access).
Proof.
  intros Hr Hfree. unfold ept_create_ptr.
  destruct (list_find_elem_of (λ i, ptr_list e !! i = None)
              (seqZ 0 EPT_MAX_EPTP_LIST) free) as [[j x] ->]; [|done..].
  apply elem_of_seqZ. lia.
Qed.

(** C5: a CR3 load with the page directory base of a registered task
    returns, unless the core is out of view identifiers, and once it has
    run on a core, every later load with that base on that core, whatever
    loads happen in between on any core, switches the core to the same
    view identifier and creates no view.  The first load creates a view,
    with [EPT_ACCESS_RX] as base access, exactly when the slot of the core
    is unassigned; otherwise it uses the view of the slot. *)
Theorem cr3_reload_same_view cpu cr3 k v i t e :
  vcpu_list k !! cpu = Some v →
  find_sa_task_pgd k (Z.land cr3 PAGE_PA_MASK) = Some (i, t) →
  task_eptp cpu t = Some e →
  (e = EPT_MAX_EPTP_LIST →
   ∃ free, 0 ≤ free < EPT_MAX_EPTP_LIST
           ∧ ptr_list (vcpu_ept v) !! free = None) →
  ∃ k1 id,
    ksm_sandbox_handle_cr3 cpu cr3 k = Ret k1
    ∧ active_view k1 cpu = Some id
    ∧ id ≠ EPT_MAX_EPTP_LIST
    ∧ (if decide (e = EPT_MAX_EPTP_LIST)
       then ptr_list (vcpu_ept v) !! id = None
            ∧ views_of k1 cpu
              = Some {| ptr_list :=
                          <[id := new_view EPT_ACCESS_RX]>
                            (ptr_list (vcpu_ept v)) |}
       else id = e ∧ views_of k1 cpu = Some (vcpu_ept v))
    ∧ ∀ loads k2,
        cr3_loads loads k1 = Ret k2 →
        ∃ k3,
          ksm_sandbox_handle_cr3 cpu cr3 k2 = Ret k3
          ∧ active_view k3 cpu = Some id
          ∧ (∀ c, views_of k3 c = views_of k2 c)
          ∧ task_list k3 = task_list k2.
Proof.
  intros Hv Hf He Hroom.
  assert (cpu < length (vcpu_list k))%nat as Hlt by (by eapply lookup_lt_Some).
  assert (∃ k1, ksm_sandbox_handle_cr3 cpu cr3 k = Ret k1) as [k1 Hload].
  { unfold ksm_sandbox_handle_cr3. rewrite Hv, Hf, He.
    case_decide as Hun; [|by eexists].
    destruct (Hroom Hun) as (free & Hr & Hfree).
    destruct (ept_create_ptr_free (vcpu_ept v) EPT_ACCESS_RX free)
      as [[id e1] ->]; [done..|]. by eexists. }
  destruct (handle_cr3_binds cpu cr3 k k1 i t Hf Hload) as (id & Hb & Hact).
  exists k1, id. split; [done|]. split; [done|].
  split; [by destruct Hb as (?&?&?&?&?&?)|]. split.
  - revert Hload Hact. unfold ksm_sandbox_handle_cr3. rewrite Hv, Hf, He.
    case_decide as Hun.
    + destruct (ept_create_ptr _ _) as [[id' e1]|] eqn:Hc; [|done].
      intros [= <-]. rewrite active_view_with_vcpu by done. intros [= ->].
      apply ept_create_ptr_Some in Hc as (_ & Hfree & ->).
      split; [done|]. unfold views_of. simpl.
      by rewrite list_lookup_insert_eq.
    + intros [= <-]. rewrite active_view_with_vcpu by done. intros [= ->].
      split; [done|]. rewrite views_of_with_vcpu_root by done.
      unfold views_of. by rewrite Hv.
  - intros loads k2 Hrun. apply handle_cr3_bound.
    by eapply cr3_loads_keep_bound.
Qed.

End HandleCr3.

(** ** The task registry *)

Section Registry.
Context `{ksm_h} `{kernel}.

Lemma registry_wf_pool k m m' :
  mm_pool m' = mm_pool m → registry_wf k m → registry_wf k m'.
Proof. intros Hp (? & ? & ?). unfold registry_wf. by rewrite Hp. Qed.

(** What [create_sa_task] does when the allocator hands out a record. *)
Lemma create_sa_task_ok k m pid pgd p rest :
  mm_supply m = p :: rest → p ≠ 0 →
  ∃ m',
    create_sa_task k m pid pgd
    = (0, (with_tasks k
             (list_add (task_list k)
                {| sa_self := p; sa_pid := pid; sa_pgd := pgd;
                   sa_eptp := replicate KSM_MAX_VCPUS EPT_MAX_EPTP_LIST;
                   sa_pages := [] |}), m'))
    ∧ mm_pool m' = p :: mm_pool m
    ∧ mm_supply m' = rest.
Proof.
  intros Hs Hp. unfold create_sa_task, mm_alloc_pool, mm_next. rewrite Hs.
  simpl. repeat (case_decide; [done|]; simpl). by eexists.
Qed.

(** And when it does not. *)
Lemma create_sa_task_nomem k m pid pgd :
  (mm_supply m = [] ∨ head (mm_supply m) = Some 0) →
  ∃ m',
    create_sa_task k m pid pgd = (ERR_NOMEM, (k, m'))
    ∧ mm_pool m' = mm_pool m.
Proof.
  unfold create_sa_task, mm_alloc_pool, mm_next.
  intros [Hs|Hs].
  - rewrite Hs. simpl. by eexists.
  - destruct (mm_supply m) as [|p rest]; [done|]. injection Hs as ->.
    simpl. by eexists.
Qed.

(** C8: registering a pid that is registered already is not refused on
    that account: the call either fails for one of its own reasons (the
    process lookup, the allocation) and leaves the registry as it was, or
    adds a second, independent record for the pid (storage of its own,
    every slot unassigned, no pages).  Either way the record that was
    there is still on the list, unchanged, and the registry stays well
    formed. *)
Theorem ksm_sandbox_again k m pid i t :
  registry_wf k m → supply_fresh m →
  find_sa_task k pid = Some (i, t) →
  ∃ r k' m',
    ksm_sandbox k m pid = (r, (k', m'))
    ∧ registry_wf k' m'
    ∧ t ∈ task_list k'
    ∧ ((k' = k ∧ mm_pool m' = mm_pool m
        ∧ (r = - EINVAL ∨ r = - ENOENT ∨ r = ERR_NOMEM))
       ∨ (r = 0
          ∧ ∃ t', task_list k' = list_add (task_list k) t'
                  ∧ vcpu_list k' = vcpu_list k
                  ∧ sa_pid t' = pid
                  ∧ (sa_self t' ∉ (sa_self <$> task_list k))
                  ∧ sa_eptp t' = replicate KSM_MAX_VCPUS EPT_MAX_EPTP_LIST
                  ∧ sa_pages t' = []
                  ∧ mm_pool m' = sa_self t' :: mm_pool m)).
Proof.
  intros Hwf Hfresh Hf.
  assert (t ∈ task_list k) as Hin.
  { apply list_find_Some in Hf as (Hl & _). by eapply list_elem_of_lookup_2. }
  unfold ksm_sandbox.
  destruct (find_vpid pid) as [tsk_pid|];
    [|eexists _, _, _; split_and!; [done..|left; auto]].
  destruct (pid_task tsk_pid) as [tsk|];
    [|eexists _, _, _; split_and!; [done..|left; auto]].
  set (pgd := Z.land _ _).
  destruct (mm_supply m) as [|p rest] eqn:Hs.
  { destruct (create_sa_task_nomem k m pid pgd) as (m' & -> & Hp); [by left|].
    eexists _, _, _. split_and!; [done|by eapply registry_wf_pool|done|left; auto]. }
  destruct (decide (p = 0)) as [->|Hp0].
  { destruct (create_sa_task_nomem k m pid pgd) as (m' & -> & Hp).
    { right. by rewrite Hs. }
    eexists _, _, _. split_and!; [done|by eapply registry_wf_pool|done|left; auto]. }
  destruct (create_sa_task_ok k m pid pgd p rest) as (m' & -> & Hp & _);
    [done..|].
  assert (p ∉ mm_pool m) as Hnew by (apply Hfresh; by rewrite Hs).
  destruct Hwf as (Hlen & Hnd & Hlive).
  assert (p ∉ (sa_self <$> task_list k)) as Hnot.
  { intros (t0 & -> & Ht0)%list_elem_of_fmap. apply Hnew.
    by eapply (proj1 (Forall_forall _ _) Hlive). }
  eexists _, _, _. split_and!; [done| | |right].
  - unfold registry_wf, list_add. simpl. split_and!.
    + apply Forall_app. split; [done|]. constructor; [|done]. simpl.
      apply length_replicate.
    + rewrite fmap_app. apply NoDup_app. split_and!; [done| |].
      * intros x Hx. simpl. intros ->%list_elem_of_singleton. done.
      * simpl. apply NoDup_singleton.
    + rewrite Hp. apply Forall_app. split.
      * eapply Forall_impl; [done|]. intros t0 Ht0. simpl in *. by right.
      * constructor; [|done]. simpl. by left.
  - simpl. unfold list_add. apply elem_of_app. by left.
  - split; [done|]. eexists. split_and!; done.
Qed.

End Registry.

(** ** Shutdown *)

Section Teardown.
Context `{ksm_h} `{kernel}.

Lemma free_task_view_other cpu task k i c :
  c ≠ cpu → views_of (free_task_view cpu task k i) c = views_of k c.
Proof.
  intros Hne. unfold free_task_view.
  destruct (sa_eptp task !! i) as [id|]; [|done].
  case_decide; [done|].
  destruct (ksm_cpu k cpu); [|done].
  unfold views_of, with_vcpu. simpl. by rewrite list_lookup_insert_ne.
Qed.

Lemma __free_sa_task_other cpu task st c :
  c ≠ cpu → views_of (__free_sa_task cpu task st).1 c = views_of st.1 c.
Proof.
  intros Hne. destruct st as [k m]. unfold __free_sa_task.
  destruct (foldl (λ st page, free_cow_page page st) _ _) as [pages m1]. simpl.
  generalize (seq 0 KSM_MAX_VCPUS). intros slots. revert k.
  induction slots as [|i slots IH]; intros k; simpl; [done|].
  rewrite IH. by apply free_task_view_other.
Qed.

Lemma free_tasks_other cpu c tasks : ∀ st,
  c ≠ cpu →
  views_of (foldl (λ st task, __free_sa_task cpu task st) st tasks).1 c
  = views_of st.1 c.
Proof.
  induction tasks as [|t tasks IH]; intros st Hne; simpl; [done|].
  rewrite IH by done. by apply __free_sa_task_other.
Qed.

(** Shutdown only ever frees views of the core it runs on: the views of
    every other core are all still there afterwards. *)
Lemma ksm_sandbox_exit_other_cores cpu k m c :
  c ≠ cpu → views_of (ksm_sandbox_exit cpu k m).2.1 c = views_of k c.
Proof.
  intros Hne. unfold ksm_sandbox_exit. simpl.
  by rewrite free_tasks_other.
Qed.

End Teardown.

(** ** The code at work on the configuration above *)

Section Scenarios.
Local Existing Instances x86_64 guest.

(** The states used below are states the code reaches from boot. *)
Lemma k_reg_reached :
  ksm_sandbox k_boot (mm_boot [0xffff880000300000]) 42
  = (0, (k_reg, mm_task42 [])).
Proof. reflexivity. Qed.

Lemma k_core0_reached : ksm_sandbox_handle_cr3 0 0x1000 k_reg = Ret k_core0.
Proof. reflexivity. Qed.

Lemma k_core1_reached : ksm_sandbox_handle_cr3 1 0x1000 k_reg = Ret k_core1.
Proof. reflexivity. Qed.

Lemma k_paged_reached :
  ksm_sandbox_copy_page (task42 [512; 1; 512; 512] []) 0x2000
    (mm_task42 copy_supply)
  = (Some page_2000, task42 [512; 1; 512; 512] [page_2000], mm_paged).
Proof. reflexivity. Qed.

(** C1: the handler does not take the copy branch on the faults the
    specification names.  Scenario A: pid 42 runs on core 0 in its view 1,
    a user-mode write (dpl 3, access 2) faults at guest physical 0x2000,
    guest virtual 0x402000, on an entry that grants read and execute (5),
    and the guest's own page table entry for the address has no user bit.
    The trigger of the specification holds, the test of the code does
    not: the handler widens the entry in place to 7, the frame stays 2,
    no page is copied and the allocator is not called. *)
Theorem scenario_A_takes_widen_branch :
  let m := mm_task42 copy_supply in
  let u_pte := user_pte (pte_from_cr3_va 0x1000 0x402000) in
  spec_cow_trigger 3 5 2 u_pte = true
  ∧ cow_test u_pte 0x402000 2 = false
  ∧ ksm_sandbox_handle_ept 0 42 3 0x2000 0x402000 1 5 2 false 0 k_core0 m
    = Ret {| handled := true; invd := true; eptp_switch := 0;
             exit_ksm := {| task_list := [task42 [1; 512; 512; 512] []];
                            vcpu_list := [widened_vcpu; boot_vcpu] |};
             exit_mm := m |}.
Proof. split_and!; reflexivity. Qed.

(** C2: a successful [ksm_sandbox_copy_page] returns with the temporary
    window still mapped.  On the frame at 0x2000 the call succeeds, fills
    and links the record, and the window [mm_remap] gave it is
    outstanding afterwards, where none was before: only the two error
    paths call [mm_unmap]. *)
Theorem copy_page_success_keeps_window :
  let t := task42 [512; 1; 512; 512] [] in
  let m := mm_task42 copy_supply in
  ∃ m',
    ksm_sandbox_copy_page t 0x2000 m
    = (Some page_2000, with_pages t (list_add (sa_pages t) page_2000), m')
    ∧ mm_windows m = []
    ∧ mm_windows m' = [window_2000]
    ∧ mm_pages m' = [cow_hva page_2000]
    ∧ (∀ i, 0 ≤ i < 4096 →
         mm_host m' (cow_hva page_2000 + i) = mm_guest m (0x2000 + i)).
Proof.
  intros t m.
  destruct (ksm_sandbox_copy_page_ok t 0x2000 m
              0xffffc90000000000 0xffff880000400000 0xffff880000500000 [])
    as (m' & Heq & _ & Hw & _ & Hp & _ & Hcopy & _); [done..|].
  exists m'. split_and!; done.
Qed.

(** C7: [ksm_sandbox_exit] does not free all it should.  Run on core 0
    with pid 42 holding view 1 of core 1: the task's record goes back to
    the pool, but view 1 of core 1 is still there, since every
    [ept_free_ptr] goes to the views of the core that runs the shutdown.
    With a copied page in the task: the page's frame is freed, its record
    is handed to [mm_free_page] and stays out of the pool. *)
Theorem exit_leaves_view_and_record :
  let '(r1, (k1, m1)) := ksm_sandbox_exit 0 k_core1 (mm_task42 []) in
  let '(r2, (k2, m2)) := ksm_sandbox_exit 0 k_paged mm_paged in
  (r1 = 0
   ∧ task_eptp 1 (task42 [512; 1; 512; 512] []) = Some 1
   ∧ views_of k_core1 1 = Some (vcpu_ept rx_vcpu)
   ∧ views_of k1 1 = Some (vcpu_ept rx_vcpu)
   ∧ ptr_list (vcpu_ept rx_vcpu) !! 1 = Some (new_view 5)
   ∧ mm_pool m1 = [])
  ∧ (r2 = 0
     ∧ mm_pool mm_paged = [cow_self page_2000; 0xffff880000300000]
     ∧ mm_pages mm_paged = [cow_hva page_2000]
     ∧ mm_pages m2 = []
     ∧ mm_pool m2 = [cow_self page_2000]).
Proof. split; split_and!; reflexivity. Qed.


(** Witnesses: the statements above at work on a state of the
    configuration. *)

Lemma copy_page_failure_releases_witness :
  let t := task42 [1; 512; 512; 512] [] in
  let m := mm_task42 [0xffffc90000000000; 0xffff880000400000; 0] in
  let m' := mm_task42 [] in
  ksm_sandbox_copy_page t 0x2000 m = (None, t, m')
  ∧ (t = t
     ∧ mm_windows m' = mm_windows m
     ∧ mm_pool m' = mm_pool m
     ∧ mm_pages m' = mm_pages m
     ∧ mm_host m' = mm_host m
     ∧ mm_guest m' = mm_guest m).
Proof.
  intros t m m'. split; [reflexivity|].
  apply (copy_page_failure_releases t 0x2000 m t m'). reflexivity.
Defined.

Lemma handle_ept_unregistered_witness :
  Forall (λ t, sa_pid t ≠ 7) (task_list k_core0)
  ∧ ksm_sandbox_handle_ept 0 7 3 0x2000 0x402000 1 5 2 false 1 k_core0
      (mm_task42 copy_supply)
    = Ret {| handled := true; invd := false; eptp_switch := EPTP_DEFAULT;
             exit_ksm := k_core0; exit_mm := mm_task42 copy_supply |}.
Proof.
  assert (Forall (λ t, sa_pid t ≠ 7) (task_list k_core0)) as Hno.
  { repeat constructor. simpl. lia. }
  split; [exact Hno|].
  apply (handle_ept_unregistered 0 7 3 0x2000 0x402000 1 5 2 false 1 k_core0
           (mm_task42 copy_supply) Hno).
Defined.

Lemma handle_cr3_unregistered_witness :
  vcpu_list k_core0 !! 1%nat = Some boot_vcpu
  ∧ Forall (λ t, sa_pgd t ≠ Z.land 0x5000 PAGE_PA_MASK) (task_list k_core0)
  ∧ ∃ k',
      ksm_sandbox_handle_cr3 1 0x5000 k_core0 = Ret k'
      ∧ active_view k' 1 = Some EPTP_DEFAULT
      ∧ task_list k' = task_list k_core0
      ∧ (∀ c, views_of k' c = views_of k_core0 c)
      ∧ (∀ c, c ≠ 1%nat → active_view k' c = active_view k_core0 c).
Proof.
  assert (Forall (λ t, sa_pgd t ≠ Z.land 0x5000 PAGE_PA_MASK)
            (task_list k_core0)) as Hno.
  { repeat constructor. vm_compute. lia. }
  split; [reflexivity|]. split; [exact Hno|].
  apply (handle_cr3_unregistered 1 0x5000 k_core0 boot_vcpu); [reflexivity|exact Hno].
Defined.

Lemma cr3_reload_same_view_witness :
  let t := task42 [512; 512; 512; 512] [] in
  vcpu_list k_reg !! 0%nat = Some boot_vcpu
  ∧ find_sa_task_pgd k_reg (Z.land 0x1018 PAGE_PA_MASK) = Some (0%nat, t)
  ∧ task_eptp 0 t = Some 512
  ∧ (512 = EPT_MAX_EPTP_LIST →
     ∃ free, 0 ≤ free < EPT_MAX_EPTP_LIST
             ∧ ptr_list (vcpu_ept boot_vcpu) !! free = None)
  ∧ ∃ k1 id,
      ksm_sandbox_handle_cr3 0 0x1018 k_reg = Ret k1
      ∧ active_view k1 0 = Some id
      ∧ id ≠ EPT_MAX_EPTP_LIST
      ∧ (if decide (512 = EPT_MAX_EPTP_LIST)
         then ptr_list (vcpu_ept boot_vcpu) !! id = None
              ∧ views_of k1 0
                = Some {| ptr_list :=
                            <[id := new_view EPT_ACCESS_RX]>
                              (ptr_list (vcpu_ept boot_vcpu)) |}
         else id = 512 ∧ views_of k1 0 = Some (vcpu_ept boot_vcpu))
      ∧ ∀ loads k2,
          cr3_loads loads k1 = Ret k2 →
          ∃ k3,
            ksm_sandbox_handle_cr3 0 0x1018 k2 = Ret k3
            ∧ active_view k3 0 = Some id
            ∧ (∀ c, views_of k3 c = views_of k2 c)
            ∧ task_list k3 = task_list k2.
Proof.
  intros t.
  assert (512 = EPT_MAX_EPTP_LIST →
          ∃ free, 0 ≤ free < EPT_MAX_EPTP_LIST
                  ∧ ptr_list (vcpu_ept boot_vcpu) !! free = None) as Hroom.
  { intros _. exists 1. split; [simpl; lia|reflexivity]. }
  split; [reflexivity|]. split; [reflexivity|]. split; [reflexivity|].
  split; [exact Hroom|].
  apply (cr3_reload_same_view 0 0x1018 k_reg boot_vcpu 0 t 512);
    [reflexivity|reflexivity|reflexivity|exact Hroom].
Defined.

Lemma ksm_sandbox_again_witness :
  let m := mm_task42 [0xffff880000310000] in
  let t := task42 [1; 512; 512; 512] [] in
  registry_wf k_core0 m
  ∧ supply_fresh m
  ∧ find_sa_task k_core0 42 = Some (0%nat, t)
  ∧ ∃ r k' m',
      ksm_sandbox k_core0 m 42 = (r, (k', m'))
      ∧ registry_wf k' m'
      ∧ t ∈ task_list k'
      ∧ ((k' = k_core0 ∧ mm_pool m' = mm_pool m
          ∧ (r = - EINVAL ∨ r = - ENOENT ∨ r = ERR_NOMEM))
         ∨ (r = 0
            ∧ ∃ t', task_list k' = list_add (task_list k_core0) t'
                    ∧ vcpu_list k' = vcpu_list k_core0
                    ∧ sa_pid t' = 42
                    ∧ (sa_self t' ∉ (sa_self <$> task_list k_core0))
                    ∧ sa_eptp t' = replicate KSM_MAX_VCPUS EPT_MAX_EPTP_LIST
                    ∧ sa_pages t' = []
                    ∧ mm_pool m' = sa_self t' :: mm_pool m)).
Proof.
  intros m t.
  assert (registry_wf k_core0 m) as Hwf.
  { split_and!.
    - repeat constructor.
    - apply NoDup_singleton.
    - repeat constructor. }
  assert (supply_fresh m) as Hfresh.
  { intros p [= <-]. simpl. intros Hin%list_elem_of_singleton. lia. }
  split; [exact Hwf|]. split; [exact Hfresh|]. split; [reflexivity|].
  apply (ksm_sandbox_again k_core0 m 42 0 t Hwf Hfresh). reflexivity.
Defined.

End Scenarios.

(** ** More on the task registry *)

Section RegistryMore.
Context `{ksm_h} `{kernel}.

Lemma list_del_app_last {A} `{EqDecision A} (x : A) (l : list A) :
  x ∉ l → list_del x (l ++ [x]) = l.
Proof.
  induction l as [|y l IH]; intros Hx; simpl.
  - by rewrite decide_True.
  - apply not_elem_of_cons in Hx as [Hne Hx].
    rewrite decide_False by done. by rewrite IH.
Qed.

Lemma list_del_not_elem {A} `{EqDecision A} (x : A) (l : list A) :
  NoDup l → x ∉ list_del x l.
Proof.
  induction 1 as [|y l Hy Hnd IH]; simpl; [apply not_elem_of_nil|].
  case_decide as Hxy; [by subst|].
  apply not_elem_of_cons. split; [congruence|done].
Qed.

Lemma list_del_elem_ne {A} `{EqDecision A} (x y : A) (l : list A) :
  y ≠ x → y ∈ list_del x l ↔ y ∈ l.
Proof.
  intros Hne. induction l as [|z l IH]; simpl; [done|].
  case_decide as Hz.
  - subst z. rewrite elem_of_cons. split; [by right|].
    by intros [?|?].
  - rewrite !elem_of_cons, IH. done.
Qed.

(** Unlinking a record that a lookup does not look for leaves what the
    lookup finds. *)
Lemma list_find_list_del {A} `{EqDecision A} (P : A → Prop)
    `{∀ x, Decision (P x)} (x : A) (l : list A) :
  ¬ P x → snd <$> list_find P (list_del x l) = snd <$> list_find P l.
Proof.
  intros Hx. induction l as [|y l IH]; simpl; [done|].
  destruct (decide (y = x)) as [->|Hne].
  - rewrite (decide_False (P := P x)) by done.
    destruct (list_find P l) as [[i z]|]; done.
  - simpl. destruct (decide (P y)); [done|].
    destruct (list_find P (list_del x l)) as [[i z]|],
             (list_find P l) as [[j w]|]; simpl in *; congruence.
Qed.

Lemma list_find_add_other {A} (P : A → Prop) `{∀ x, Decision (P x)}
    (x : A) (l : list A) :
  ¬ P x → list_find P (list_add l x) = list_find P l.
Proof.
  intros Hx. unfold list_add.
  destruct (list_find P l) as [[i y]|] eqn:Hf.
  - by apply list_find_app_l.
  - rewrite list_find_app_r by done. simpl. by rewrite decide_False.
Qed.

Lemma list_find_add_new {A} (P : A → Prop) `{∀ x, Decision (P x)}
    (x : A) (l : list A) :
  P x → list_find P l = None →
  list_find P (list_add l x) = Some (length l, x).
Proof.
  intros Hx Hf. unfold list_add. rewrite list_find_app_r by done. simpl.
  by rewrite decide_True.
Qed.

(** What a call of [ksm_sandbox] that returns 0 has done, where the error
    codes are not 0. *)
Lemma ksm_sandbox_zero k m pid k' m' :
  EINVAL ≠ 0 → ENOENT ≠ 0 → ERR_NOMEM ≠ 0 →
  ksm_sandbox k m pid = (0, (k', m')) →
  ∃ tsk_pid tsk p rest,
    find_vpid pid = Some tsk_pid ∧ pid_task tsk_pid = Some tsk
    ∧ mm_supply m = p :: rest ∧ p ≠ 0
    ∧ k' = with_tasks k
             (list_add (task_list k)
                {| sa_self := p; sa_pid := pid;
                   sa_pgd := Z.land (__pa (tsk_mm_pgd tsk)) PAGE_PA_MASK;
                   sa_eptp := replicate KSM_MAX_VCPUS EPT_MAX_EPTP_LIST;
                   sa_pages := [] |})
    ∧ mm_supply m' = rest
    ∧ mm_pool m' = p :: mm_pool m
    ∧ mm_pages m' = mm_pages m
    ∧ mm_windows m' = mm_windows m
    ∧ mm_host m' = mm_host m
    ∧ mm_guest m' = mm_guest m.
Proof.
  intros He1 He2 He3. unfold ksm_sandbox.
  destruct (find_vpid pid) as [tsk_pid|] eqn:Hv; [|intros [= ? _ _]; lia].
  destruct (pid_task tsk_pid) as [tsk|] eqn:Ht; [|intros [= ? _ _]; lia].
  unfold create_sa_task, mm_alloc_pool, mm_next.
  destruct (mm_supply m) as [|p rest] eqn:Hs; simpl.
  { intros [= ? _ _]. lia. }
  repeat (case_decide; simpl); try (intros [= ? _ _]; lia).
  intros [= <- <-]. exists tsk_pid, tsk, p, rest. split_and!; done.
Qed.

(** What a call that returns something else has done: nothing but use up
    a pointer of the supply. *)
Lemma ksm_sandbox_nonzero k m pid r k' m' :
  ksm_sandbox k m pid = (r, (k', m')) → r ≠ 0 →
  k' = k
  ∧ mm_pool m' = mm_pool m
  ∧ mm_pages m' = mm_pages m
  ∧ mm_windows m' = mm_windows m
  ∧ mm_host m' = mm_host m
  ∧ mm_guest m' = mm_guest m.
Proof.
  unfold ksm_sandbox.
  destruct (find_vpid pid) as [tsk_pid|]; [|by intros [= <- <- <-]].
  destruct (pid_task tsk_pid) as [tsk|]; [|by intros [= <- <- <-]].
  unfold create_sa_task, mm_alloc_pool, mm_next.
  destruct (mm_supply m) as [|p rest] eqn:Hs; simpl.
  { by intros [= <- <- <-]. }
  repeat (case_decide; simpl); intros [= <- <- <-]; done.
Qed.

(** X1: [ksm_sandbox] returns 0 exactly when it has added a record: on 0
    the registry is the old one with one record for the pid added, whose
    storage the allocator now counts as handed out; on any other value
    the registry is unchanged and nothing stays allocated. *)
Theorem ksm_sandbox_return_value k m pid r k' m' :
  EINVAL ≠ 0 → ENOENT ≠ 0 → ERR_NOMEM ≠ 0 →
  ksm_sandbox k m pid = (r, (k', m')) →
  vcpu_list k' = vcpu_list k
  ∧ mm_pages m' = mm_pages m
  ∧ mm_windows m' = mm_windows m
  ∧ (r = 0 →
     ∃ t, task_list k' = list_add (task_list k) t
          ∧ sa_pid t = pid ∧ sa_self t ≠ 0
          ∧ sa_eptp t = replicate KSM_MAX_VCPUS EPT_MAX_EPTP_LIST
          ∧ sa_pages t = []
          ∧ mm_pool m' = sa_self t :: mm_pool m)
  ∧ (r ≠ 0 → k' = k ∧ mm_pool m' = mm_pool m).
Proof.
  intros He1 He2 He3 Hrun. destruct (decide (r = 0)) as [->|Hr].
  - destruct (ksm_sandbox_zero k m pid k' m') as
      (a & tsk & p & rest & _ & _ & _ & Hp & -> & _ & Hpool & Hpg & Hw & _);
      [done..|].
    split_and!; [done..| |done].
    intros _. eexists. split_and!; [done..|by simpl|done|done|done].
  - destruct (ksm_sandbox_nonzero k m pid r k' m') as (-> & ? & ? & ? & _);
      [done..|].
    split_and!; done.
Qed.

(** X2: after a registration that returned 0 a lookup of the pid finds a
    record; it finds the new one, with every slot unassigned and no
    pages, when the pid was not registered before.  The lookup of any
    other pid finds what it found before. *)
Theorem ksm_sandbox_then_find k m pid k' m' :
  EINVAL ≠ 0 → ENOENT ≠ 0 → ERR_NOMEM ≠ 0 →
  ksm_sandbox k m pid = (0, (k', m')) →
  (∃ i t, find_sa_task k' pid = Some (i, t) ∧ sa_pid t = pid)
  ∧ (find_sa_task k pid = None →
     ∃ t, find_sa_task k' pid = Some (length (task_list k), t)
          ∧ sa_eptp t = replicate KSM_MAX_VCPUS EPT_MAX_EPTP_LIST
          ∧ sa_pages t = []
          ∧ mm_pool m' = sa_self t :: mm_pool m)
  ∧ (∀ pid', pid' ≠ pid →
     snd <$> find_sa_task k' pid' = snd <$> find_sa_task k pid').
Proof.
  intros He1 He2 He3 Hrun.
  destruct (ksm_sandbox_zero k m pid k' m') as
    (a & tsk & p & rest & _ & _ & _ & Hp & -> & _ & Hpool & _); [done..|].
  unfold find_sa_task. simpl. split_and!.
  - destruct (list_find (λ task, sa_pid task = pid) (task_list k))
      as [[i t]|] eqn:Hf.
    + exists i, t. split; [by apply list_find_app_l|].
      by apply list_find_Some in Hf as (_ & ? & _).
    + eexists _, _. split; [by apply list_find_add_new|done].
  - intros Hf. eexists. split; [by apply list_find_add_new|done].
  - intros pid' Hne. by rewrite list_find_add_other by (simpl; congruence).
Qed.

End RegistryMore.

(** ** More on tearing tasks down *)

Section TeardownMore.
Context `{ksm_h} `{kernel}.

Lemma release_list_del a l : release a l = list_del a l.
Proof. induction l as [|x l IH]; simpl; [done|]. by rewrite IH. Qed.

Lemma list_del_NoDup {A} `{EqDecision A} (x : A) (l : list A) :
  NoDup l → NoDup (list_del x l).
Proof.
  induction 1 as [|y l Hy Hnd IH]; simpl; [constructor|].
  case_decide as Hxy; [done|]. constructor; [|done].
  intros Hin. apply Hy. destruct (decide (y = x)) as [->|Hne]; [done|].
  by apply (list_del_elem_ne x y l) in Hin.
Qed.

Lemma list_del_elem {A} `{EqDecision A} (x y : A) (l : list A) :
  y ∈ list_del x l → y ∈ l.
Proof.
  induction l as [|z l IH]; simpl; [done|].
  case_decide; rewrite ?elem_of_cons; [by right|].
  intros [?|?]; [by left|right; by apply IH].
Qed.

(** The frames the second loop of [__free_sa_task] gives back: for every
    page its frame, and whatever page [mm_free_page(page)] finds at the
    address of the record. *)
Lemma free_pages_mm ps : ∀ pages0 m,
  let m1 := (foldl (λ st page, free_cow_page page st) (pages0, m) ps).2 in
  mm_supply m1 = mm_supply m
  ∧ mm_windows m1 = mm_windows m
  ∧ mm_pool m1 = mm_pool m
  ∧ mm_host m1 = mm_host m
  ∧ mm_guest m1 = mm_guest m
  ∧ mm_pages m1
    = foldl (λ l p, release (cow_self p) (release (cow_hva p) l))
        (mm_pages m) ps.
Proof.
  induction ps as [|p ps IH]; intros pages0 m; simpl; [done|].
  specialize (IH (list_del p pages0)
                (mm_free_page (cow_self p) (mm_free_page (cow_hva p) m))).
  simpl in IH. exact IH.
Qed.

Lemma __free_sa_task_mm cpu task k m :
  let m1 := (__free_sa_task cpu task (k, m)).2 in
  mm_supply m1 = mm_supply m
  ∧ mm_windows m1 = mm_windows m
  ∧ mm_host m1 = mm_host m
  ∧ mm_guest m1 = mm_guest m
  ∧ mm_pool m1 = release (sa_self task) (mm_pool m)
  ∧ mm_pages m1
    = foldl (λ l p, release (cow_self p) (release (cow_hva p) l))
        (mm_pages m) (sa_pages task).
Proof.
  unfold __free_sa_task.
  pose proof (free_pages_mm (sa_pages task) (sa_pages task) m) as Hp.
  destruct (foldl (λ st page, free_cow_page page st) _ _) as [pages m1].
  simpl in *. destruct Hp as (-> & -> & -> & -> & -> & ->). done.
Qed.

Lemma free_task_view_tasks cpu task k i :
  task_list (free_task_view cpu task k i) = task_list k.
Proof.
  unfold free_task_view. destruct (sa_eptp task !! i); [|done].
  case_decide; [done|]. by destruct (ksm_cpu k cpu).
Qed.

Lemma free_task_views_tasks cpu task l : ∀ k,
  task_list (foldl (free_task_view cpu task) k l) = task_list k.
Proof.
  induction l as [|i l IH]; intros k; simpl; [done|].
  by rewrite IH, free_task_view_tasks.
Qed.

Lemma __free_sa_task_tasks cpu task k m :
  task_list (__free_sa_task cpu task (k, m)).1 = task_list k.
Proof.
  unfold __free_sa_task.
  destruct (foldl (λ st page, free_cow_page page st) _ _) as [pages m1].
  simpl. apply free_task_views_tasks.
Qed.

(** The first loop for a task that has no view on any core does
    nothing. *)
Lemma free_task_views_unassigned cpu task l : ∀ k,
  (∀ i id, sa_eptp task !! i = Some id → id = EPT_MAX_EPTP_LIST) →
  foldl (free_task_view cpu task) k l = k.
Proof.
  induction l as [|i l IH]; intros k Hun; simpl; [done|].
  assert (free_task_view cpu task k i = k) as ->; [|by apply IH].
  unfold free_task_view. destruct (sa_eptp task !! i) as [id|] eqn:Hi; [|done].
  by rewrite decide_True by eauto.
Qed.

(** The first loop, slot by slot: the identifiers in the slots it goes
    through are deleted from the views of the core the code runs on, the
    other views of that core stay. *)
Lemma free_task_views_spec cpu task l : ∀ k v,
  vcpu_list k !! cpu = Some v →
  ∃ v',
    vcpu_list (foldl (free_task_view cpu task) k l) !! cpu = Some v'
    ∧ root_eptp v' = root_eptp v
    ∧ (∀ id, id ≠ EPT_MAX_EPTP_LIST →
         (∃ i, i ∈ l ∧ sa_eptp task !! i = Some id) →
         ptr_list (vcpu_ept v') !! id = None)
    ∧ (∀ id, ¬ (id ≠ EPT_MAX_EPTP_LIST
                 ∧ ∃ i, i ∈ l ∧ sa_eptp task !! i = Some id) →
         ptr_list (vcpu_ept v') !! id = ptr_list (vcpu_ept v) !! id)
    ∧ (∀ id, ptr_list (vcpu_ept v) !! id = None →
         ptr_list (vcpu_ept v') !! id = None).
Proof.
  induction l as [|i l IH]; intros k v Hv; simpl.
  { exists v. split_and!; [done..| |done|done].
    intros id _ (i & Hi & _). by apply elem_of_nil in Hi. }
  assert (∃ v1, vcpu_list (free_task_view cpu task k i) !! cpu = Some v1
                ∧ root_eptp v1 = root_eptp v
                ∧ (∀ id, id ≠ EPT_MAX_EPTP_LIST →
                     sa_eptp task !! i = Some id →
                     ptr_list (vcpu_ept v1) !! id = None)
                ∧ (∀ id, ¬ (id ≠ EPT_MAX_EPTP_LIST
                             ∧ sa_eptp task !! i = Some id) →
                     ptr_list (vcpu_ept v1) !! id
                     = ptr_list (vcpu_ept v) !! id)
                ∧ (∀ id, ptr_list (vcpu_ept v) !! id = None →
                     ptr_list (vcpu_ept v1) !! id = None))
    as (v1 & Hv1 & Hroot1 & Hdel1 & Hkeep1 & Hnone1).
  { unfold free_task_view, ksm_cpu.
    destruct (sa_eptp task !! i) as [id0|] eqn:Hi.
    - case_decide as Hun.
      + exists v. split_and!; [done..| |done|done].
        intros id Hid [= ->]. done.
      + rewrite Hv. eexists. split_and!.
        * simpl. apply list_lookup_insert_eq. by eapply lookup_lt_Some.
        * done.
        * intros id _ [= ->]. simpl. apply lookup_delete_eq.
        * intros id Hnot. simpl. apply lookup_delete_ne.
          intros ->. by apply Hnot.
        * intros id Hnone. simpl. rewrite lookup_delete. by case_decide.
    - exists v. split_and!; [done..| |done|done]. intros id _ [=]. }
  destruct (IH _ v1 Hv1) as (v' & Hv' & Hroot & Hdel & Hkeep & Hnone).
  exists v'. split_and!; [done|congruence| | |by eauto].
  - intros id Hid (j & Hj & Hslot). apply elem_of_cons in Hj as [->|Hj].
    + apply Hnone. by apply Hdel1.
    + apply Hdel; eauto.
  - intros id Hnot. rewrite Hkeep, Hkeep1; [done| |].
    + intros [Hid Hslot]. apply Hnot. split; [done|].
      exists i. split; [by left|done].
    + intros [Hid (j & Hj & Hslot)]. apply Hnot. split; [done|].
      exists j. split; [by right|done].
Qed.

Lemma __free_sa_task_views cpu task k m v :
  vcpu_list k !! cpu = Some v →
  ∃ v',
    vcpu_list (__free_sa_task cpu task (k, m)).1 !! cpu = Some v'
    ∧ root_eptp v' = root_eptp v
    ∧ (∀ id, freed_by task id → ptr_list (vcpu_ept v') !! id = None)
    ∧ (∀ id, ¬ freed_by task id →
         ptr_list (vcpu_ept v') !! id = ptr_list (vcpu_ept v) !! id)
    ∧ (∀ id, ptr_list (vcpu_ept v) !! id = None →
         ptr_list (vcpu_ept v') !! id = None).
Proof.
  intros Hv. unfold __free_sa_task.
  destruct (foldl (λ st page, free_cow_page page st) _ _) as [pages m1].
  simpl.
  destruct (free_task_views_spec cpu task (seq 0 KSM_MAX_VCPUS) k v Hv)
    as (v' & Hv' & Hroot & Hdel & Hkeep & Hnone).
  exists v'. split_and!; [done..| | |done].
  - intros id [Hid (i & Hi & Hslot)]. apply Hdel; [done|].
    exists i. split; [|done]. apply elem_of_seq. lia.
  - intros id Hnot. apply Hkeep. intros [Hid (i & Hi & Hslot)].
    apply Hnot. split; [done|]. exists i. split; [|done].
    apply elem_of_seq in Hi. lia.
Qed.

Lemma free_tasks_views cpu tasks : ∀ k m v,
  vcpu_list k !! cpu = Some v →
  ∃ v',
    vcpu_list (foldl (λ st task, __free_sa_task cpu task st) (k, m) tasks).1
      !! cpu = Some v'
    ∧ root_eptp v' = root_eptp v
    ∧ (∀ id, (∃ t, t ∈ tasks ∧ freed_by t id) →
         ptr_list (vcpu_ept v') !! id = None)
    ∧ (∀ id, ¬ (∃ t, t ∈ tasks ∧ freed_by t id) →
         ptr_list (vcpu_ept v') !! id = ptr_list (vcpu_ept v) !! id)
    ∧ (∀ id, ptr_list (vcpu_ept v) !! id = None →
         ptr_list (vcpu_ept v') !! id = None).
Proof.
  induction tasks as [|t tasks IH]; intros k m v Hv; cbn [foldl].
  { exists v. split_and!; [done..| |done|done].
    intros id (t & Ht & _). by apply elem_of_nil in Ht. }
  destruct (__free_sa_task_views cpu t k m v Hv)
    as (v1 & Hv1 & Hroot1 & Hdel1 & Hkeep1 & Hnone1).
  destruct (__free_sa_task cpu t (k, m)) as [k1 m1] eqn:Hstep. simpl in Hv1.
  destruct (IH k1 m1 v1 Hv1) as (v' & Hv' & Hroot & Hdel & Hkeep & Hnone).
  exists v'. split_and!; [done|congruence| | |by eauto].
  - intros id (t' & Ht' & Hfree). apply elem_of_cons in Ht' as [->|Ht'].
    + apply Hnone. by apply Hdel1.
    + apply Hdel; eauto.
  - intros id Hnot. rewrite Hkeep, Hkeep1; [done| |].
    + intros Hfree. apply Hnot. exists t. split; [by left|done].
    + intros (t' & Ht' & Hfree). apply Hnot. exists t'.
      split; [by right|done].
Qed.

Lemma free_tasks_tasks cpu tasks : ∀ k m,
  task_list (foldl (λ st task, __free_sa_task cpu task st) (k, m) tasks).1
  = task_list k.
Proof.
  induction tasks as [|t tasks IH]; intros k m; cbn [foldl]; [done|].
  destruct (__free_sa_task cpu t (k, m)) as [k1 m1] eqn:Hstep.
  rewrite IH. by rewrite <- (__free_sa_task_tasks cpu t k m), Hstep.
Qed.

(** X3: [ksm_sandbox_exit], run on core [cpu], does to the views of that
    core exactly this: it deletes every identifier it finds in a slot of
    a task, whichever core the slot belongs to, and keeps every other
    view.  The core stays on the view it was on, the views of the other
    cores are all kept, and the tasks stay linked on [k->task_list]. *)
Theorem ksm_sandbox_exit_views cpu k m v :
  vcpu_list k !! cpu = Some v →
  ∃ v',
    vcpu_list (ksm_sandbox_exit cpu k m).2.1 !! cpu = Some v'
    ∧ root_eptp v' = root_eptp v
    ∧ (∀ id, (∃ t, t ∈ task_list k ∧ freed_by t id) →
         ptr_list (vcpu_ept v') !! id = None)
    ∧ (∀ id, ¬ (∃ t, t ∈ task_list k ∧ freed_by t id) →
         ptr_list (vcpu_ept v') !! id = ptr_list (vcpu_ept v) !! id)
    ∧ (∀ c, c ≠ cpu →
         views_of (ksm_sandbox_exit cpu k m).2.1 c = views_of k c)
    ∧ task_list (ksm_sandbox_exit cpu k m).2.1 = task_list k.
Proof.
  intros Hv. unfold ksm_sandbox_exit. simpl.
  destruct (free_tasks_views cpu (task_list k) k m v Hv)
    as (v' & Hv' & Hroot & Hdel & Hkeep & _).
  exists v'. split_and!; [done..| |].
  - intros c Hc. by rewrite free_tasks_other.
  - apply free_tasks_tasks.
Qed.

(** What is left of a list of outstanding pointers after the releases of
    one task, and of all of them. *)
Lemma release_pages_spec ps : ∀ l,
  NoDup l →
  let l' := foldl (λ l p, release (cow_self p) (release (cow_hva p) l)) l ps in
  NoDup l' ∧ (∀ x, x ∈ l' → x ∈ l) ∧ (∀ p, p ∈ ps → cow_hva p ∉ l').
Proof.
  induction ps as [|p ps IH]; intros l Hnd; simpl.
  { split_and!; [done..|]. intros p Hp. by apply elem_of_nil in Hp. }
  set (l1 := release (cow_self p) (release (cow_hva p) l)).
  assert (NoDup l1) as Hnd1.
  { unfold l1. rewrite !release_list_del. by do 2 apply list_del_NoDup. }
  assert (∀ x, x ∈ l1 → x ∈ l) as Hsub1.
  { unfold l1. rewrite !release_list_del. intros x Hx.
    by do 2 apply list_del_elem in Hx. }
  assert (cow_hva p ∉ l1) as Hgone.
  { unfold l1. rewrite !release_list_del. intros Hx.
    apply list_del_elem in Hx. by apply list_del_not_elem in Hx. }
  destruct (IH l1 Hnd1) as (Hnd' & Hsub' & Hfree').
  split_and!; [done|by eauto|].
  intros q Hq. apply elem_of_cons in Hq as [->|Hq]; [|by apply Hfree'].
  intros Hx. by apply Hgone, Hsub'.
Qed.

Lemma free_tasks_mm cpu tasks : ∀ k m,
  NoDup (mm_pool m) → NoDup (mm_pages m) →
  let m' :=
    (foldl (λ st task, __free_sa_task cpu task st) (k, m) tasks).2 in
  mm_supply m' = mm_supply m
  ∧ mm_windows m' = mm_windows m
  ∧ mm_host m' = mm_host m
  ∧ mm_guest m' = mm_guest m
  ∧ NoDup (mm_pool m') ∧ NoDup (mm_pages m')
  ∧ (∀ x, x ∈ mm_pool m' → x ∈ mm_pool m)
  ∧ (∀ x, x ∈ mm_pages m' → x ∈ mm_pages m)
  ∧ (∀ t, t ∈ tasks → sa_self t ∉ mm_pool m')
  ∧ (∀ t p, t ∈ tasks → p ∈ sa_pages t → cow_hva p ∉ mm_pages m')
  ∧ (∀ x, x ∈ mm_pool m → x ∉ (sa_self <$> tasks) → x ∈ mm_pool m').
Proof.
  induction tasks as [|t tasks IH]; intros k m Hpool Hpages; cbn [foldl].
  { simpl. split_and!; try done.
    - intros t Ht. by apply elem_of_nil in Ht.
    - intros t p Ht. by apply elem_of_nil in Ht. }
  pose proof (__free_sa_task_mm cpu t k m) as Hstep.
  destruct (__free_sa_task cpu t (k, m)) as [k1 m1]. simpl in Hstep.
  destruct Hstep as (Hs1 & Hw1 & Hh1 & Hg1 & Hp1 & Hpg1).
  destruct (release_pages_spec (sa_pages t) (mm_pages m) Hpages)
    as (Hnd1 & Hsub1 & Hfree1).
  rewrite <- Hpg1 in Hnd1, Hsub1, Hfree1.
  assert (NoDup (mm_pool m1)) as Hndp1.
  { rewrite Hp1, release_list_del. by apply list_del_NoDup. }
  destruct (IH k1 m1 Hndp1 Hnd1)
    as (Hs & Hw & Hh & Hg & Hndp & Hndg & Hsubp & Hsubg & Hself & Hhva & Hkeep).
  split_and!; try congruence; try done.
  - intros x Hx. apply Hsubp in Hx. rewrite Hp1, release_list_del in Hx.
    by apply list_del_elem in Hx.
  - by eauto.
  - intros t' Ht'. apply elem_of_cons in Ht' as [->|Ht']; [|by apply Hself].
    intros Hx. apply Hsubp in Hx. rewrite Hp1, release_list_del in Hx.
    by apply list_del_not_elem in Hx.
  - intros t' p Ht' Hp. apply elem_of_cons in Ht' as [->|Ht'];
      [|by eapply Hhva].
    intros Hx. by apply (Hfree1 p Hp), Hsubg.
  - intros x Hx Hnot. rewrite fmap_cons in Hnot.
    apply not_elem_of_cons in Hnot as [Hne Hnot]. apply Hkeep; [|done].
    rewrite Hp1, release_list_del. by apply list_del_elem_ne.
Qed.

(** X4: what [ksm_sandbox_exit] gives back to an allocator that counts
    every pointer once: the record of every task and the frame of every
    page of every task are no longer outstanding afterwards.  It calls no
    [mm_unmap] and no allocation: the windows outstanding before are
    outstanding after.  And it gives back to the pool nothing but the
    records of the tasks: whatever else the pool had handed out, the
    records of the pages among it, is still handed out. *)
Theorem ksm_sandbox_exit_frees cpu k m :
  NoDup (mm_pool m) → NoDup (mm_pages m) →
  let m' := (ksm_sandbox_exit cpu k m).2.2 in
  (ksm_sandbox_exit cpu k m).1 = 0
  ∧ mm_windows m' = mm_windows m
  ∧ mm_supply m' = mm_supply m
  ∧ (∀ t, t ∈ task_list k → sa_self t ∉ mm_pool m')
  ∧ (∀ t p, t ∈ task_list k → p ∈ sa_pages t → cow_hva p ∉ mm_pages m')
  ∧ (∀ x, x ∈ mm_pool m → x ∉ (sa_self <$> task_list k) → x ∈ mm_pool m').
Proof.
  intros Hpool Hpages. unfold ksm_sandbox_exit. simpl.
  destruct (free_tasks_mm cpu (task_list k) k m Hpool Hpages)
    as (Hs & Hw & _ & _ & _ & _ & _ & _ & Hself & Hhva & Hkeep).
  split_and!; done.
Qed.

(** X5: registering a process and then tearing its task down with
    [free_sa_task] undoes the registration: the registry and the views
    are those from before, and the allocator has the same records, pages
    and windows outstanding as before. *)
Theorem ksm_sandbox_then_free cpu k m pid k1 m1 :
  EINVAL ≠ 0 → ENOENT ≠ 0 → ERR_NOMEM ≠ 0 →
  (∀ p, head (mm_supply m) = Some p → p ∉ (sa_self <$> task_list k)) →
  ksm_sandbox k m pid = (0, (k1, m1)) →
  ∃ t,
    last (task_list k1) = Some t
    ∧ sa_pid t = pid
    ∧ (free_sa_task cpu t (k1, m1)).1 = k
    ∧ mm_pool (free_sa_task cpu t (k1, m1)).2 = mm_pool m
    ∧ mm_pages (free_sa_task cpu t (k1, m1)).2 = mm_pages m
    ∧ mm_windows (free_sa_task cpu t (k1, m1)).2 = mm_windows m.
Proof.
  intros He1 He2 He3 Hfresh Hrun.
  destruct (ksm_sandbox_zero k m pid k1 m1) as
    (a & tsk & p & rest & _ & _ & Hs & Hp & -> & _ & Hpool & Hpg & Hw & _);
    [done..|].
  set (t := {| sa_self := p; sa_pid := pid; sa_pgd := _;
               sa_eptp := _; sa_pages := [] |}).
  assert (t ∉ task_list k) as Hnew.
  { intros Hin. apply (Hfresh p); [by rewrite Hs|].
    apply list_elem_of_fmap. by exists t. }
  exists t. split; [by apply last_snoc|]. split; [done|].
  assert (free_sa_task cpu t (with_tasks k (list_add (task_list k) t), m1)
          = __free_sa_task cpu t (k, m1)) as ->.
  { unfold free_sa_task, list_add. cbn [task_list with_tasks].
    rewrite list_del_app_last by done. by destruct k. }
  pose proof (__free_sa_task_mm cpu t k m1) as (_ & Hw2 & _ & _ & Hp2 & Hpg2).
  rewrite Hp2, Hpg2, Hw2, Hpool, Hpg, Hw, release_head.
  split_and!; [|done..].
  unfold __free_sa_task.
  destruct (foldl (λ st page, free_cow_page page st) _ _) as [pages m2].
  cbn [fst]. apply free_task_views_unassigned. intros i id Hi.
  by apply lookup_replicate in Hi as [-> _].
Qed.

(** X6: [free_sa_task] takes the task off the registry: a lookup of its
    pid finds nothing any more when no other task had that pid, lookups
    of other pids find what they found before, and every other task is
    still registered. *)
Theorem free_sa_task_unregisters cpu k m t :
  NoDup (task_list k) →
  (∀ t', t' ∈ task_list k → sa_pid t' = sa_pid t → t' = t) →
  let k' := (free_sa_task cpu t (k, m)).1 in
  task_list k' = list_del t (task_list k)
  ∧ (t ∉ task_list k')
  ∧ find_sa_task k' (sa_pid t) = None
  ∧ (∀ pid, pid ≠ sa_pid t →
       snd <$> find_sa_task k' pid = snd <$> find_sa_task k pid)
  ∧ (∀ t', t' ∈ task_list k → t' ≠ t → t' ∈ task_list k').
Proof.
  intros Hnd Hone. cbv zeta.
  assert (task_list (free_sa_task cpu t (k, m)).1 = list_del t (task_list k))
    as Hl.
  { unfold free_sa_task. by rewrite __free_sa_task_tasks. }
  unfold find_sa_task. rewrite Hl. split_and!.
  - done.
  - by apply list_del_not_elem.
  - apply list_find_None, Forall_forall. intros t' Hin Hpid.
    assert (t' = t) as -> by (apply Hone; [by eapply list_del_elem|done]).
    by apply list_del_not_elem in Hin.
  - intros pid Hne. apply list_find_list_del. congruence.
  - intros t' Hin Hne. by apply list_del_elem_ne.
Qed.

End TeardownMore.

(** ** More on the EPT violation handler *)

Section HandleEptMore.
Context `{ksm_h} `{kernel}.

Lemma ept_pte_store_same e id gpa x :
  is_Some (ptr_list e !! id) → ept_pte (store_epte e id gpa x) id gpa = Some x.
Proof.
  intros [v Hv]. unfold ept_pte, store_epte. rewrite Hv. simpl.
  rewrite lookup_insert_eq. simpl. by rewrite lookup_insert_eq.
Qed.

Lemma ept_pte_store_other e id gpa x id' gpa' :
  id' ≠ id ∨ Z.shiftr gpa' PAGE_SHIFT ≠ Z.shiftr gpa PAGE_SHIFT →
  ept_pte (store_epte e id gpa x) id' gpa' = ept_pte e id' gpa'.
Proof.
  intros Hne. unfold ept_pte, store_epte.
  destruct (ptr_list e !! id) as [v|] eqn:Hv; [|done]. simpl.
  destruct (decide (id' = id)) as [->|Hid].
  - rewrite lookup_insert_eq, Hv. simpl.
    destruct Hne as [?|Hg]; [done|]. by rewrite lookup_insert_ne.
  - by rewrite lookup_insert_ne.
Qed.

Lemma store_epte_live e id gpa x id' :
  is_Some (ptr_list (store_epte e id gpa x) !! id')
  ↔ is_Some (ptr_list e !! id').
Proof.
  unfold store_epte. destruct (ptr_list e !! id) as [v|] eqn:Hv; [|done].
  simpl. destruct (decide (id' = id)) as [->|Hid].
  - rewrite lookup_insert_eq, Hv. split; by eexists.
  - by rewrite lookup_insert_ne.
Qed.

Lemma ept_pte_is_Some e id gpa :
  is_Some (ept_pte e id gpa) ↔ is_Some (ptr_list e !! id).
Proof.
  unfold ept_pte. destruct (ptr_list e !! id) as [v|].
  - split; intros _; by eexists.
  - split; by intros [? ?].
Qed.

(** The three ways the handler returns for a registered task. *)
Lemma handle_ept_Ret cpu pid dpl gpa gva curr ar ac invd0 sw0 k m i task r :
  find_sa_task k pid = Some (i, task) →
  ksm_sandbox_handle_ept cpu pid dpl gpa gva curr ar ac invd0 sw0 k m = Ret r →
  ∃ v x,
    vcpu_list k !! cpu = Some v
    ∧ task_eptp cpu task = Some curr
    ∧ curr ≠ EPT_MAX_EPTP_LIST
    ∧ ept_pte (vcpu_ept v) curr gpa = Some x
    ∧ let test :=
        cow_test (user_pte (pte_from_cr3_va (sa_pgd task) gva)) gva ac in
      (test = false
       ∧ r = {| handled := true; invd := true; eptp_switch := sw0;
                exit_ksm :=
                  with_vcpu k cpu
                    {| vcpu_ept :=
                         store_epte (vcpu_ept v) curr gpa
                           {| epte_ar := Z.lor ar ac;
                              epte_pfn := epte_pfn x |};
                       root_eptp := root_eptp v |};
                exit_mm := m |})
      ∨ (test = true
         ∧ ∃ p task' m',
             ksm_sandbox_copy_page task gpa m = (Some p, task', m')
             ∧ r = {| handled := true; invd := true; eptp_switch := sw0;
                      exit_ksm :=
                        with_vcpu
                          (with_tasks k (<[i := task']> (task_list k))) cpu
                          {| vcpu_ept :=
                               store_epte (vcpu_ept v) curr gpa
                                 {| epte_ar := Z.lor ar ac;
                                    epte_pfn :=
                                      Z.shiftr (cow_hpa p) PAGE_SHIFT |};
                             root_eptp := root_eptp v |};
                      exit_mm := m' |})
      ∨ (test = true
         ∧ ∃ task' m',
             ksm_sandbox_copy_page task gpa m = (None, task', m')
             ∧ r = {| handled := false; invd := invd0; eptp_switch := sw0;
                      exit_ksm := k; exit_mm := m' |}).
Proof.
  intros Hf. unfold ksm_sandbox_handle_ept. rewrite Hf.
  destruct (task_eptp cpu task) as [eptp|] eqn:He; [|done].
  destruct (vcpu_list k !! cpu) as [v|] eqn:Hv; [|done].
  case_decide as Hun; [done|].
  destruct (ept_pte (vcpu_ept v) curr gpa) as [x|] eqn:Hx; [|done].
  case_decide as Hcur; [done|].
  assert (eptp = curr) as -> by (by destruct (decide (eptp = curr))).
  destruct (cow_test _ _ _) eqn:Ht.
  - destruct (ksm_sandbox_copy_page task gpa m) as [[[p|] task'] m'] eqn:Hc;
      intros [= <-]; exists v, x; cbv zeta; split_and!; try done.
    + right. left. split; [done|]. by eexists _, _, _.
    + right. right. split; [done|]. by eexists _, _.
  - intros [= <-]. exists v, x. cbv zeta.
    split_and!; try done. by left.
Qed.

(** When it returns at all. *)
Lemma handle_ept_returns cpu pid dpl gpa gva curr ar ac invd0 sw0 k m i task v :
  find_sa_task k pid = Some (i, task) →
  vcpu_list k !! cpu = Some v →
  task_eptp cpu task = Some curr →
  curr ≠ EPT_MAX_EPTP_LIST →
  is_Some (ptr_list (vcpu_ept v) !! curr) →
  ∃ r,
    ksm_sandbox_handle_ept cpu pid dpl gpa gva curr ar ac invd0 sw0 k m = Ret r.
Proof.
  intros Hf Hv He Hne Hlive. unfold ksm_sandbox_handle_ept.
  rewrite Hf, He, Hv, decide_False by done.
  apply (ept_pte_is_Some _ _ gpa) in Hlive as [x ->].
  rewrite decide_False by (intros Hn; by apply Hn).
  destruct (cow_test _ _ _); [|by eexists].
  destruct (ksm_sandbox_copy_page task gpa m) as [[[p|] task'] m'];
    by eexists.
Qed.

(** X7: for a fault of a registered process the handler halts on a
    [BUG_ON], instead of returning, exactly when the fault is not in the
    view the task has on this core: the slot of the core is unassigned or
    holds another view than [curr], or the core has no such view. *)
Theorem handle_ept_halts_iff
    cpu pid dpl gpa gva curr ar ac invd0 sw0 k m i task v :
  find_sa_task k pid = Some (i, task) →
  vcpu_list k !! cpu = Some v →
  ksm_sandbox_handle_ept cpu pid dpl gpa gva curr ar ac invd0 sw0 k m = Bug
  ↔ ¬ (task_eptp cpu task = Some curr
       ∧ curr ≠ EPT_MAX_EPTP_LIST
       ∧ is_Some (ptr_list (vcpu_ept v) !! curr)).
Proof.
  intros Hf Hv. split.
  - intros Hbug (He & Hne & Hlive).
    destruct (handle_ept_returns cpu pid dpl gpa gva curr ar ac invd0 sw0
                k m i task v) as [r Hr]; [done..|].
    congruence.
  - intros Hnot.
    destruct (ksm_sandbox_handle_ept cpu pid dpl gpa gva curr ar ac invd0
                sw0 k m) as [r|] eqn:Hr; [|done].
    exfalso. apply Hnot.
    destruct (handle_ept_Ret _ _ _ _ _ _ _ _ _ _ _ _ _ _ _ Hf Hr)
      as (v' & x & Hv' & He & Hne & Hx & _).
    assert (v' = v) as -> by congruence. split_and!; [done..|].
    apply (ept_pte_is_Some _ _ gpa). by eexists.
Qed.

Lemma land_1_bit0 w : Z.land 1 w = Z.b2z (Z.testbit w 0).
Proof.
  rewrite Z.land_comm, Z.bit0_mod.
  change 1 with (Z.ones 1). by rewrite Z.land_ones.
Qed.

(** X8: what the test in front of the copy branch amounts to.  It holds
    exactly when the guest's page table entry is missing or has no
    [PAGE_USER] bit, the faulting guest virtual address is not 0, [ac]
    is not 0, and bit 0 of the constant [EPT_ACCESS_WRITE] is set.  It
    asks neither [dpl] nor [ar], nor which bits [ac] has. *)
Theorem cow_test_true_iff u_pte gva ac :
  cow_test u_pte gva ac = true
  ↔ u_pte = false ∧ gva ≠ 0 ∧ ac ≠ 0 ∧ Z.testbit EPT_ACCESS_WRITE 0 = true.
Proof.
  unfold cow_test. pose proof (land_1_bit0 EPT_ACCESS_WRITE) as Hl.
  destruct u_pte; cbn [b2z negb].
  - rewrite Z.land_0_l, andb_false_r. split; [done|by intros [? _]].
  - rewrite Hl. destruct (Z.testbit EPT_ACCESS_WRITE 0); cbn [Z.b2z].
    + destruct (Z.eqb_spec 0 gva), (Z.eqb_spec ac 0); cbn;
        split; try done; try (intros (_ & ? & ? & _); lia).
    + rewrite andb_false_r. split; [done|by intros (_ & _ & _ & ?)].
Qed.

Lemma ksm_sandbox_copy_page_Some task gpa m p task' m' :
  ksm_sandbox_copy_page task gpa m = (Some p, task', m') →
  task' = with_pages task (list_add (sa_pages task) p)
  ∧ cow_gpa p = gpa
  ∧ cow_hpa p = __pa (cow_hva p)
  ∧ cow_hva p ≠ 0 ∧ cow_self p ≠ 0.
Proof.
  unfold ksm_sandbox_copy_page, mm_remap, mm_alloc_pool, mm_alloc_page,
    mm_next.
  destruct (mm_supply m) as [|h [|page [|hva rest]]]; simpl;
    repeat (case_decide; simpl); try done.
  by intros [= <- <- <-].
Qed.

Lemma ept_pte_same_frame e id gpa gpa' :
  Z.shiftr gpa' PAGE_SHIFT = Z.shiftr gpa PAGE_SHIFT →
  ept_pte e id gpa' = ept_pte e id gpa.
Proof. intros Hg. unfold ept_pte. by rewrite Hg. Qed.

(** X9: a fault of a registered process that the handler answers changes
    one entry and nothing else of the views: the entry of view [curr] of
    this core for the faulting frame, which gets the access [ar | ac].
    Every other entry of every view is as before, the other cores are
    untouched, the core stays on its view and [*eptp_switch] is left
    alone.  Of the tasks only the page list of the faulting one can
    change, and only by one record for [gpa] added to it.  When the
    handler returns false nothing of this has changed and [*invd] is left
    alone; when it returns true [*invd] is set. *)
Theorem handle_ept_frame
    cpu pid dpl gpa gva curr ar ac invd0 sw0 k m i task r :
  find_sa_task k pid = Some (i, task) →
  ksm_sandbox_handle_ept cpu pid dpl gpa gva curr ar ac invd0 sw0 k m = Ret r →
  ∃ v v',
    vcpu_list k !! cpu = Some v
    ∧ vcpu_list (exit_ksm r) !! cpu = Some v'
    ∧ root_eptp v' = root_eptp v
    ∧ eptp_switch r = sw0
    ∧ (∀ c, c ≠ cpu → vcpu_list (exit_ksm r) !! c = vcpu_list k !! c)
    ∧ (∀ id gpa',
         id ≠ curr ∨ Z.shiftr gpa' PAGE_SHIFT ≠ Z.shiftr gpa PAGE_SHIFT →
         ept_pte (vcpu_ept v') id gpa' = ept_pte (vcpu_ept v) id gpa')
    ∧ (handled r = true →
       invd r = true
       ∧ ∃ x, ept_pte (vcpu_ept v') curr gpa = Some x
              ∧ epte_ar x = Z.lor ar ac)
    ∧ (handled r = false → exit_ksm r = k ∧ invd r = invd0)
    ∧ (∀ j t, task_list k !! j = Some t →
         ∃ t', task_list (exit_ksm r) !! j = Some t'
               ∧ sa_self t' = sa_self t ∧ sa_pid t' = sa_pid t
               ∧ sa_pgd t' = sa_pgd t ∧ sa_eptp t' = sa_eptp t
               ∧ (sa_pages t' = sa_pages t
                  ∨ ∃ p, sa_pages t' = list_add (sa_pages t) p
                         ∧ cow_gpa p = gpa)
               ∧ (j ≠ i → t' = t)).
Proof.
  intros Hf Hr.
  destruct (handle_ept_Ret _ _ _ _ _ _ _ _ _ _ _ _ _ _ _ Hf Hr)
    as (v & x & Hv & He & Hne & Hx & Hcases). cbv zeta in Hcases.
  assert (cpu < length (vcpu_list k))%nat as Hlt by (by eapply lookup_lt_Some).
  assert (is_Some (ptr_list (vcpu_ept v) !! curr)) as Hlive.
  { apply (ept_pte_is_Some _ _ gpa). by eexists. }
  destruct Hcases as [[Ht ->]|[(Ht & p & task' & m' & Hc & ->)
                              |(Ht & task' & m' & Hc & ->)]]; simpl.
  - eexists v, _. split; [done|].
    split; [by apply list_lookup_insert_eq|].
    split_and!; [done|done| | | | |].
    + intros c Hcne. by apply list_lookup_insert_ne.
    + intros id gpa' Hother. simpl. by apply ept_pte_store_other.
    + intros _. split; [done|]. eexists.
      split; [simpl; by apply ept_pte_store_same|done].
    + done.
    + intros j t Hj. exists t. split_and!; try done. by left.
  - apply ksm_sandbox_copy_page_Some in Hc as (-> & Hgpa & _).
    eexists v, _. split; [done|].
    split; [by apply list_lookup_insert_eq|].
    split_and!; [done|done| | | | |].
    + intros c Hcne. by apply list_lookup_insert_ne.
    + intros id gpa' Hother. simpl. by apply ept_pte_store_other.
    + intros _. split; [done|]. eexists.
      split; [simpl; by apply ept_pte_store_same|done].
    + done.
    + intros j t Hj. destruct (decide (j = i)) as [->|Hji].
      * pose proof Hf as (Hi & _)%list_find_Some.
        assert (t = task) as -> by congruence.
        exists (with_pages task (list_add (sa_pages task) p)).
        split; [|split_and!; try done; right; by exists p].
        apply list_lookup_insert_eq. by eapply lookup_lt_Some.
      * exists t. rewrite list_lookup_insert_ne by done.
        split_and!; try done. by left.
  - exists v, v. split_and!; try done.
    intros j t Hj. exists t. split_and!; try done. by left.
Qed.

(** X10: where the write flag is not bit 0 of the access rights, as it
    is not in an EPT entry, the handler never copies and never moves a
    frame:
    every fault it answers is answered with true, the tasks and the
    allocator are as before, and every entry of every view of every core
    points at the frame it pointed at before. *)
Theorem handle_ept_keeps_frames
    cpu pid dpl gpa gva curr ar ac invd0 sw0 k m r :
  Z.land 1 EPT_ACCESS_WRITE = 0 →
  ksm_sandbox_handle_ept cpu pid dpl gpa gva curr ar ac invd0 sw0 k m = Ret r →
  handled r = true
  ∧ task_list (exit_ksm r) = task_list k
  ∧ exit_mm r = m
  ∧ ∀ c v v' id gpa',
      vcpu_list k !! c = Some v →
      vcpu_list (exit_ksm r) !! c = Some v' →
      epte_pfn <$> ept_pte (vcpu_ept v') id gpa'
      = epte_pfn <$> ept_pte (vcpu_ept v) id gpa'.
Proof.
  intros Hw Hr.
  destruct (find_sa_task k pid) as [[i task]|] eqn:Hf.
  - destruct (handle_ept_Ret _ _ _ _ _ _ _ _ _ _ _ _ _ _ _ Hf Hr)
      as (v0 & x & Hv0 & He & Hne & Hx & Hcases). cbv zeta in Hcases.
    rewrite cow_test_bit0 in Hcases by done.
    destruct Hcases as [[_ ->]|[(? & _)|(? & _)]]; [|done..]. simpl.
    split_and!; [done..|]. intros c v v' id gpa' Hv Hv'.
    destruct (decide (c = cpu)) as [->|Hc].
    + rewrite list_lookup_insert_eq in Hv' by (by eapply lookup_lt_Some).
      injection Hv' as <-. assert (v0 = v) as -> by congruence. simpl.
      destruct (decide (id = curr
                        ∧ Z.shiftr gpa' PAGE_SHIFT = Z.shiftr gpa PAGE_SHIFT))
        as [[-> Hg]|Hother].
      * rewrite !(ept_pte_same_frame _ _ gpa gpa') by done.
        rewrite ept_pte_store_same, Hx; [done|].
        apply (ept_pte_is_Some _ _ gpa). by eexists.
      * rewrite ept_pte_store_other; [done|].
        destruct (decide (id = curr)); [right|left]; naive_solver.
    + rewrite list_lookup_insert_ne in Hv' by done. congruence.
  - revert Hr. unfold ksm_sandbox_handle_ept. rewrite Hf. intros [= <-].
    simpl. split_and!; [done..|]. intros c v v' id gpa' Hv Hv'. congruence.
Qed.

End HandleEptMore.

(** ** The bookkeeping of views *)

Section ViewsMore.
Context `{ksm_h} `{kernel}.

Lemma slot_of_Some k i cpu id :
  slot_of k i cpu = Some id
  ↔ ∃ t, task_list k !! i = Some t ∧ sa_eptp t !! cpu = Some id.
Proof.
  unfold slot_of, task_eptp. destruct (task_list k !! i) as [t|]; simpl.
  - split; [by exists t|]. by intros (? & [= <-] & ?).
  - split; [done|]. by intros (? & ? & _).
Qed.

(** Steps that keep the slots and do not take views away keep the
    bookkeeping sound. *)
Lemma views_inv_keep k k' :
  length (vcpu_list k') = length (vcpu_list k) →
  (∀ c id, view_live k c id → view_live k' c id) →
  (∀ i c, slot_of k' i c = slot_of k i c) →
  views_inv k → views_inv k'.
Proof.
  intros Hlen Hlive Hslot (Hdef & Hin & Hapart). split_and!.
  - intros c Hc. apply Hlive, Hdef. by rewrite <- Hlen.
  - intros i c id Hs Hid. rewrite Hslot in Hs.
    destruct (Hin i c id Hs Hid). split; [by apply Hlive|done].
  - intros i j c id Hi Hj Hid. rewrite Hslot in Hi, Hj. by eapply Hapart.
Qed.

Lemma view_live_with_vcpu k cpu v v' c id :
  vcpu_list k !! cpu = Some v →
  (∀ id, is_Some (ptr_list (vcpu_ept v) !! id) →
         is_Some (ptr_list (vcpu_ept v') !! id)) →
  view_live k c id → view_live (with_vcpu k cpu v') c id.
Proof.
  intros Hv Hgrow (w & Hw & Hid). unfold view_live. simpl.
  destruct (decide (c = cpu)) as [->|Hc].
  - exists v'. rewrite list_lookup_insert_eq by (by eapply lookup_lt_Some).
    split; [done|]. apply Hgrow. congruence.
  - exists w. by rewrite list_lookup_insert_ne.
Qed.

Lemma views_inv_add k t :
  (∀ c id, sa_eptp t !! c = Some id → id = EPT_MAX_EPTP_LIST) →
  views_inv k → views_inv (with_tasks k (list_add (task_list k) t)).
Proof.
  intros Hun (Hdef & Hin & Hapart).
  assert (∀ i c id,
            slot_of (with_tasks k (list_add (task_list k) t)) i c = Some id →
            id ≠ EPT_MAX_EPTP_LIST → slot_of k i c = Some id) as Hold.
  { intros i c id (t' & Ht' & Hs)%slot_of_Some Hid. apply slot_of_Some.
    simpl in Ht'. unfold list_add in Ht'.
    apply lookup_app_Some in Ht' as [Ht'|[_ Ht']]; [by exists t'|].
    apply list_lookup_singleton_Some in Ht' as [_ <-].
    by apply Hun in Hs. }
  split_and!.
  - intros c Hc. by apply Hdef.
  - intros i c id Hs Hid.
    destruct (Hin i c id) as [Hl Hnd]; [by apply Hold|done|].
    split; [exact Hl|done].
  - intros i j c id Hi Hj Hid.
    apply (Hapart i j c id); [by apply Hold|by apply Hold|done].
Qed.

Lemma views_inv_create k i t cpu v access id e1 :
  task_list k !! i = Some t →
  vcpu_list k !! cpu = Some v →
  is_Some (sa_eptp t !! cpu) →
  ept_create_ptr (vcpu_ept v) access = Some (id, e1) →
  views_inv k →
  views_inv
    (with_vcpu (with_tasks k (<[i := with_eptp t cpu id]> (task_list k))) cpu
       (vcpu_switch_root_eptp {| vcpu_ept := e1; root_eptp := root_eptp v |}
          id)).
Proof.
  intros Ht Hv Hslot Hc (Hdef & Hin & Hapart).
  apply ept_create_ptr_Some in Hc as (Hid & Hfree & ->).
  set (k' := with_vcpu _ _ _).
  assert (cpu < length (vcpu_list k))%nat as Hlt by (by eapply lookup_lt_Some).
  assert (∀ c id', view_live k c id' → view_live k' c id') as Hlive.
  { intros c id' Hl. unfold k'.
    apply (view_live_with_vcpu _ cpu v); [done| |done].
    intros id0 Hid0. simpl. rewrite lookup_insert. by case_decide. }
  assert (view_live k' cpu id) as Hnew.
  { exists (vcpu_switch_root_eptp
              {| vcpu_ept :=
                   {| ptr_list :=
                        <[id := new_view access]> (ptr_list (vcpu_ept v)) |};
                 root_eptp := root_eptp v |} id).
    unfold k'. simpl. rewrite list_lookup_insert_eq by done.
    split; [done|]. simpl. rewrite lookup_insert_eq. by eexists. }
  assert (∀ j c id',
            slot_of k' j c = Some id' →
            (j = i ∧ c = cpu ∧ id' = id) ∨ slot_of k j c = Some id') as Hold.
  { intros j c id' (t' & Ht' & Hs)%slot_of_Some. unfold k' in Ht'.
    simpl in Ht'. destruct (decide (j = i)) as [->|Hji].
    - rewrite list_lookup_insert_eq in Ht' by (by eapply lookup_lt_Some).
      injection Ht' as <-. simpl in Hs.
      destruct (decide (c = cpu)) as [->|Hcc].
      + left. destruct Hslot as [e He].
        rewrite list_lookup_insert_eq in Hs by (by eapply lookup_lt_Some).
        by injection Hs as <-.
      + right. rewrite list_lookup_insert_ne in Hs by done.
        apply slot_of_Some. by exists t.
    - right. rewrite list_lookup_insert_ne in Ht' by done.
      apply slot_of_Some. by exists t'. }
  assert (∀ j, slot_of k j cpu = Some id → False) as Hfresh.
  { intros j Hj. destruct (Hin j cpu id Hj) as [(w & Hw & Hl) _]; [lia|].
    assert (w = v) as -> by congruence. rewrite Hfree in Hl.
    by destruct Hl. }
  split_and!.
  - intros c Hc. apply Hlive, Hdef. unfold k' in Hc. simpl in Hc.
    by rewrite length_insert in Hc.
  - intros j c id' Hs Hne.
    destruct (Hold j c id' Hs) as [(-> & -> & ->)|Hs'].
    + split; [done|]. intros ->.
      destruct (Hdef cpu Hlt) as (w & Hw & Hl).
      assert (w = v) as -> by congruence. rewrite Hfree in Hl.
      by destruct Hl.
    + destruct (Hin j c id' Hs' Hne). split; [by apply Hlive|done].
  - intros j1 j2 c id' H1 H2 Hne.
    destruct (Hold j1 c id' H1) as [(E1 & E2 & E3)|H1'],
             (Hold j2 c id' H2) as [(E4 & E5 & E6)|H2']; subst.
    + done.
    + by destruct (Hfresh j2).
    + by destruct (Hfresh j1).
    + by eapply Hapart.
Qed.

(** The two things [ksm_sandbox] can do to the registry. *)
Lemma ksm_sandbox_state k m pid :
  (ksm_sandbox k m pid).2.1 = k
  ∨ ∃ t, (ksm_sandbox k m pid).2.1
         = with_tasks k (list_add (task_list k) t)
         ∧ sa_eptp t = replicate KSM_MAX_VCPUS EPT_MAX_EPTP_LIST.
Proof.
  unfold ksm_sandbox.
  destruct (find_vpid pid) as [tsk_pid|]; [|by left].
  destruct (pid_task tsk_pid) as [tsk|]; [|by left].
  unfold create_sa_task, mm_alloc_pool, mm_next.
  destruct (mm_supply m) as [|p rest]; simpl; [by left|].
  repeat (case_decide; simpl); try (by left).
  right. by eexists.
Qed.

Lemma handle_cr3_views_inv cpu cr3 k k1 :
  views_inv k → ksm_sandbox_handle_cr3 cpu cr3 k = Ret k1 → views_inv k1.
Proof.
  intros Hinv. unfold ksm_sandbox_handle_cr3.
  destruct (vcpu_list k !! cpu) as [v|] eqn:Hv; [|done].
  assert (∀ id, views_inv (with_vcpu k cpu (vcpu_switch_root_eptp v id)))
    as Hswitch.
  { intros id. apply (views_inv_keep k); [| |done|done].
    - simpl. apply length_insert.
    - intros c id'. by apply (view_live_with_vcpu _ cpu v). }
  destruct (find_sa_task_pgd k _) as [[i t]|] eqn:Hf;
    [|by intros [= <-]].
  destruct (task_eptp cpu t) as [e|] eqn:He; [|done].
  case_decide as Hun; [|by intros [= <-]].
  destruct (ept_create_ptr _ _) as [[id e1]|] eqn:Hc; [|done].
  intros [= <-]. apply list_find_Some in Hf as (Hi & _).
  by eapply views_inv_create.
Qed.

Lemma handle_ept_views_inv cpu pid dpl gpa gva curr ar ac invd0 sw0 k m r :
  views_inv k →
  ksm_sandbox_handle_ept cpu pid dpl gpa gva curr ar ac invd0 sw0 k m = Ret r →
  views_inv (exit_ksm r).
Proof.
  intros Hinv Hr. destruct (find_sa_task k pid) as [[i task]|] eqn:Hf.
  - destruct (handle_ept_Ret _ _ _ _ _ _ _ _ _ _ _ _ _ _ _ Hf Hr)
      as (v & x & Hv & He & Hne & Hx & Hcases). cbv zeta in Hcases.
    destruct Hcases as [[_ ->]|[(_ & p & task' & m' & Hc & ->)
                               |(_ & task' & m' & _ & ->)]]; simpl;
      [| |done].
    + apply (views_inv_keep k); [| |done|done].
      * simpl. apply length_insert.
      * intros c id. apply (view_live_with_vcpu _ cpu v); [done|].
        intros id'. simpl. by rewrite store_epte_live.
    + apply ksm_sandbox_copy_page_Some in Hc as (-> & _).
      apply (views_inv_keep k); [| | |done].
      * simpl. apply length_insert.
      * intros c id (w & Hw & Hid).
        apply (view_live_with_vcpu (with_tasks k _) cpu v); [done| |].
        -- intros id'. simpl. by rewrite store_epte_live.
        -- by exists w.
      * intros j c. unfold slot_of. simpl.
        apply list_find_Some in Hf as (Hi & _).
        destruct (decide (j = i)) as [->|Hji].
        -- rewrite list_lookup_insert_eq by (by eapply lookup_lt_Some).
           by rewrite Hi.
        -- by rewrite list_lookup_insert_ne.
  - revert Hr. unfold ksm_sandbox_handle_ept. rewrite Hf.
    by intros [= <-].
Qed.

Lemma step_views_inv ev k m k' m' :
  views_inv k → step ev (k, m) = Ret (k', m') → views_inv k'.
Proof.
  intros Hinv. destruct ev as [pid|cpu cr3|cpu pid dpl gpa gva curr ar ac i0 s0];
    simpl.
  - intros [= Hst].
    assert ((ksm_sandbox k m pid).2.1 = k') as <- by (by rewrite Hst).
    destruct (ksm_sandbox_state k m pid) as [->|(t & -> & Ht)]; [done|].
    apply views_inv_add; [|done]. intros c id Hs. rewrite Ht in Hs.
    by apply lookup_replicate in Hs as [-> _].
  - destruct (ksm_sandbox_handle_cr3 cpu cr3 k) as [k1|] eqn:Hstep; [|done].
    intros [= <- <-]. by eapply handle_cr3_views_inv.
  - destruct (ksm_sandbox_handle_ept _ _ _ _ _ _ _ _ _ _ _ _) as [r|] eqn:Hstep;
      [|done].
    intros [= <- <-]. by eapply handle_ept_views_inv.
Qed.

Lemma run_views_inv evs : ∀ k m k' m',
  views_inv k → run evs (k, m) = Ret (k', m') → views_inv k'.
Proof.
  induction evs as [|ev evs IH]; intros k m k' m' Hinv; cbn [run].
  - by intros [= <- <-].
  - destruct (step ev (k, m)) as [[k1 m1]|] eqn:Hstep; [|done].
    intros Hrun. eapply IH; [|done]. by eapply step_views_inv.
Qed.

Lemma init_views_inv k :
  (∀ cpu v, vcpu_list k !! cpu = Some v →
            is_Some (ptr_list (vcpu_ept v) !! EPTP_DEFAULT)) →
  views_inv (ksm_sandbox_init k).2.
Proof.
  intros Hdef. split_and!.
  - intros cpu Hc. simpl in Hc.
    apply lookup_lt_is_Some in Hc as [v Hv]. exists v. split; [done|].
    by eapply Hdef.
  - intros i cpu id (t & Ht & _)%slot_of_Some. done.
  - intros i j cpu id (t & Ht & _)%slot_of_Some. done.
Qed.

(** X11: from [ksm_sandbox_init] on, whatever registrations, CR3 loads
    and EPT violations follow on whatever cores, the bookkeeping of views
    stays sound as long as no [BUG_ON] fires: every slot that is assigned
    names a view its core has, that view is not the shared default view,
    and no two tasks have the same view on a core. *)
Theorem sandbox_views_isolated k m evs k' m' :
  (∀ cpu v, vcpu_list k !! cpu = Some v →
            is_Some (ptr_list (vcpu_ept v) !! EPTP_DEFAULT)) →
  run evs ((ksm_sandbox_init k).2, m) = Ret (k', m') →
  views_inv k'.
Proof.
  intros Hdef Hrun. eapply run_views_inv; [|done]. by apply init_views_inv.
Qed.

(** X12: in a state reached from [ksm_sandbox_init], a fault of a
    registered process in the view its task has on the core never halts
    on a [BUG_ON]: the handler returns. *)
Theorem handle_ept_own_view_returns
    k m evs k' m' cpu pid dpl gpa gva curr ar ac invd0 sw0 i task :
  (∀ cpu v, vcpu_list k !! cpu = Some v →
            is_Some (ptr_list (vcpu_ept v) !! EPTP_DEFAULT)) →
  run evs ((ksm_sandbox_init k).2, m) = Ret (k', m') →
  find_sa_task k' pid = Some (i, task) →
  task_eptp cpu task = Some curr →
  curr ≠ EPT_MAX_EPTP_LIST →
  ∃ r,
    ksm_sandbox_handle_ept cpu pid dpl gpa gva curr ar ac invd0 sw0 k' m'
    = Ret r.
Proof.
  intros Hdef Hrun Hf He Hne.
  assert (views_inv k') as (_ & Hin & _).
  { eapply run_views_inv; [|done]. by apply init_views_inv. }
  destruct (Hin i cpu curr) as [(v & Hv & Hlive) _]; [|done|].
  { apply slot_of_Some. exists task. split; [|done].
    by apply list_find_Some in Hf as (? & _). }
  by eapply handle_ept_returns.
Qed.

End ViewsMore.

(** ** More on CR3 loads and on copies *)

Section LoadsAndCopies.
Context `{ksm_h} `{kernel}.

(** X13: what a CR3 load never does.  It never frees a view and never
    rewrites one: every view the core has keeps its entries.  It touches
    no other core.  It never changes the pid, the page directory base or
    the pages of a task, never a slot of another core, and never a slot
    that is assigned. *)
Theorem handle_cr3_keeps cpu cr3 k k1 :
  ksm_sandbox_handle_cr3 cpu cr3 k = Ret k1 →
  ∃ v v1,
    vcpu_list k !! cpu = Some v
    ∧ vcpu_list k1 !! cpu = Some v1
    ∧ (∀ id, is_Some (ptr_list (vcpu_ept v) !! id) →
         ptr_list (vcpu_ept v1) !! id = ptr_list (vcpu_ept v) !! id)
    ∧ (∀ c, c ≠ cpu → vcpu_list k1 !! c = vcpu_list k !! c)
    ∧ length (task_list k1) = length (task_list k)
    ∧ (∀ j t, task_list k !! j = Some t →
         ∃ t', task_list k1 !! j = Some t'
               ∧ sa_self t' = sa_self t ∧ sa_pid t' = sa_pid t
               ∧ sa_pgd t' = sa_pgd t ∧ sa_pages t' = sa_pages t
               ∧ length (sa_eptp t') = length (sa_eptp t)
               ∧ (∀ c, c ≠ cpu → sa_eptp t' !! c = sa_eptp t !! c)
               ∧ (∀ c id, sa_eptp t !! c = Some id →
                    id ≠ EPT_MAX_EPTP_LIST → sa_eptp t' !! c = Some id)).
Proof.
  unfold ksm_sandbox_handle_cr3.
  destruct (vcpu_list k !! cpu) as [v|] eqn:Hv; [|done].
  assert (cpu < length (vcpu_list k))%nat as Hlt by (by eapply lookup_lt_Some).
  assert (∀ id,
    ∃ v0 v1,
      Some v = Some v0
      ∧ vcpu_list (with_vcpu k cpu (vcpu_switch_root_eptp v id)) !! cpu
        = Some v1
      ∧ (∀ id, is_Some (ptr_list (vcpu_ept v0) !! id) →
           ptr_list (vcpu_ept v1) !! id = ptr_list (vcpu_ept v0) !! id)
      ∧ (∀ c, c ≠ cpu →
           vcpu_list (with_vcpu k cpu (vcpu_switch_root_eptp v id)) !! c
           = vcpu_list k !! c)
      ∧ length (task_list k) = length (task_list k)
      ∧ (∀ j t, task_list k !! j = Some t →
           ∃ t', task_list k !! j = Some t'
                 ∧ sa_self t' = sa_self t ∧ sa_pid t' = sa_pid t
                 ∧ sa_pgd t' = sa_pgd t ∧ sa_pages t' = sa_pages t
                 ∧ length (sa_eptp t') = length (sa_eptp t)
                 ∧ (∀ c, c ≠ cpu → sa_eptp t' !! c = sa_eptp t !! c)
                 ∧ (∀ c id, sa_eptp t !! c = Some id →
                      id ≠ EPT_MAX_EPTP_LIST → sa_eptp t' !! c = Some id)))
    as Hswitch.
  { intros id. exists v, (vcpu_switch_root_eptp v id). split_and!; try done.
    - simpl. by apply list_lookup_insert_eq.
    - intros c Hc. simpl. by apply list_lookup_insert_ne.
    - intros j t Hj. exists t. split_and!; done. }
  destruct (find_sa_task_pgd k _) as [[i t]|] eqn:Hf;
    [|intros [= <-]; apply Hswitch].
  destruct (task_eptp cpu t) as [e|] eqn:He; [|done].
  case_decide as Hun; [|intros [= <-]; apply Hswitch].
  destruct (ept_create_ptr _ _) as [[id e1]|] eqn:Hc; [|done].
  intros [= <-]. apply ept_create_ptr_Some in Hc as (Hid & Hfree & ->).
  apply list_find_Some in Hf as (Hi & _).
  eexists v, _. split; [done|].
  split; [simpl; by apply list_lookup_insert_eq|]. split_and!.
  - intros id' [w Hw]. simpl. apply lookup_insert_ne. congruence.
  - intros c Hc. simpl. by apply list_lookup_insert_ne.
  - simpl. apply length_insert.
  - intros j t0 Hj. simpl. destruct (decide (j = i)) as [->|Hji].
    + assert (t0 = t) as -> by congruence.
      exists (with_eptp t cpu id).
      split; [apply list_lookup_insert_eq; by eapply lookup_lt_Some|].
      split_and!; try done.
      * simpl. apply length_insert.
      * intros c Hc. simpl. by apply list_lookup_insert_ne.
      * intros c id' Hs Hne. simpl. rewrite list_lookup_insert_ne; [done|].
        intros <-. unfold task_eptp in He. congruence.
    + exists t0. rewrite list_lookup_insert_ne by done. split_and!; done.
Qed.

(** X14: what a successful [ksm_sandbox_copy_page] leaves behind.  The
    record holds the guest physical address it was called with, the new
    page and the physical address [__pa] gives for it, and is added to
    the pages of the task, which is otherwise unchanged.  The new page
    holds, byte for byte, the guest frame; the guest frame itself and all
    other host memory are as before.  The allocator counts one more
    record and one more page, and the window the frame was read through
    is still mapped. *)
Theorem copy_page_success_effect task gpa m p task' m' :
  ksm_sandbox_copy_page task gpa m = (Some p, task', m') →
  cow_gpa p = gpa
  ∧ cow_hpa p = __pa (cow_hva p)
  ∧ task' = with_pages task (list_add (sa_pages task) p)
  ∧ mm_pool m' = cow_self p :: mm_pool m
  ∧ mm_pages m' = cow_hva p :: mm_pages m
  ∧ (∃ h, mm_windows m'
          = {| w_hva := h; w_gpa := gpa; w_size := PAGE_SIZE |}
            :: mm_windows m)
  ∧ mm_guest m' = mm_guest m
  ∧ (∀ i, 0 ≤ i < PAGE_SIZE →
       mm_host m' (cow_hva p + i) = mm_guest m (gpa + i))
  ∧ (∀ a, ¬ (cow_hva p ≤ a < cow_hva p + PAGE_SIZE) →
       mm_host m' a = mm_host m a).
Proof.
  intros Hrun.
  destruct (mm_supply m) as [|h [|page [|hva rest]]] eqn:Hs;
    try (exfalso; revert Hrun;
         unfold ksm_sandbox_copy_page, mm_remap, mm_alloc_pool,
           mm_alloc_page, mm_next;
         rewrite Hs; simpl; repeat (case_decide; simpl); done).
  destruct (decide (h = 0)) as [->|Hh];
    [exfalso; revert Hrun;
     unfold ksm_sandbox_copy_page, mm_remap, mm_next; rewrite Hs; done|].
  destruct (decide (page = 0)) as [->|Hp];
    [exfalso; revert Hrun;
     unfold ksm_sandbox_copy_page, mm_remap, mm_alloc_pool, mm_next;
     rewrite Hs; simpl; repeat (case_decide; simpl); done|].
  destruct (decide (hva = 0)) as [->|Ha];
    [exfalso; revert Hrun;
     unfold ksm_sandbox_copy_page, mm_remap, mm_alloc_pool, mm_alloc_page,
       mm_next;
     rewrite Hs; simpl; repeat (case_decide; simpl); done|].
  destruct (ksm_sandbox_copy_page_ok task gpa m h page hva rest)
    as (m0 & Heq & _ & Hw & Hpool & Hpg & Hg & Hcopy & Hrest); [done..|].
  rewrite Heq in Hrun. injection Hrun as <- <- <-. simpl.
  split_and!; try done. by exists h.
Qed.

End LoadsAndCopies.

(** ** The further statements at work on the configuration *)

Section MoreScenarios.
Local Existing Instances x86_64 guest.

Lemma error_codes_nonzero : EINVAL ≠ 0 ∧ ENOENT ≠ 0 ∧ ERR_NOMEM ≠ 0.
Proof. split_and!; vm_compute; lia. Qed.

Lemma events_42_run :
  run events_42 ((ksm_sandbox_init k_boot).2, mm_boot [0xffff880000300000])
  = Ret (k_both, mm_task42 []).
Proof. reflexivity. Qed.

Lemma ksm_sandbox_return_value_witness :
  let m := mm_boot [0xffff880000300000] in
  let m' := mm_task42 [] in
  EINVAL ≠ 0 ∧ ENOENT ≠ 0 ∧ ERR_NOMEM ≠ 0
  ∧ ksm_sandbox k_boot m 42 = (0, (k_reg, m'))
  ∧ (vcpu_list k_reg = vcpu_list k_boot
     ∧ mm_pages m' = mm_pages m
     ∧ mm_windows m' = mm_windows m
     ∧ (0 = 0 →
        ∃ t, task_list k_reg = list_add (task_list k_boot) t
             ∧ sa_pid t = 42 ∧ sa_self t ≠ 0
             ∧ sa_eptp t = replicate KSM_MAX_VCPUS EPT_MAX_EPTP_LIST
             ∧ sa_pages t = []
             ∧ mm_pool m' = sa_self t :: mm_pool m)
     ∧ (0 ≠ 0 → k_reg = k_boot ∧ mm_pool m' = mm_pool m)).
Proof.
  intros m m'. destruct error_codes_nonzero as (He1 & He2 & He3).
  split; [exact He1|]. split; [exact He2|]. split; [exact He3|].
  split; [reflexivity|].
  apply (ksm_sandbox_return_value k_boot m 42 0 k_reg m' He1 He2 He3).
  reflexivity.
Defined.

Lemma ksm_sandbox_then_find_witness :
  let m := mm_boot [0xffff880000300000] in
  let m' := mm_task42 [] in
  EINVAL ≠ 0 ∧ ENOENT ≠ 0 ∧ ERR_NOMEM ≠ 0
  ∧ ksm_sandbox k_boot m 42 = (0, (k_reg, m'))
  ∧ ((∃ i t, find_sa_task k_reg 42 = Some (i, t) ∧ sa_pid t = 42)
     ∧ (find_sa_task k_boot 42 = None →
        ∃ t, find_sa_task k_reg 42 = Some (length (task_list k_boot), t)
             ∧ sa_eptp t = replicate KSM_MAX_VCPUS EPT_MAX_EPTP_LIST
             ∧ sa_pages t = []
             ∧ mm_pool m' = sa_self t :: mm_pool m)
     ∧ (∀ pid', pid' ≠ 42 →
        snd <$> find_sa_task k_reg pid' = snd <$> find_sa_task k_boot pid')).
Proof.
  intros m m'. destruct error_codes_nonzero as (He1 & He2 & He3).
  split; [exact He1|]. split; [exact He2|]. split; [exact He3|].
  split; [reflexivity|].
  apply (ksm_sandbox_then_find k_boot m 42 k_reg m' He1 He2 He3).
  reflexivity.
Defined.

Lemma ksm_sandbox_exit_views_witness :
  let k := {| task_list := [task42 [512; 1; 512; 512] []];
              vcpu_list := [rx_vcpu; rx_vcpu] |} in
  let m := mm_task42 [] in
  vcpu_list k !! 0%nat = Some rx_vcpu
  ∧ ∃ v',
      vcpu_list (ksm_sandbox_exit 0 k m).2.1 !! 0%nat = Some v'
      ∧ root_eptp v' = root_eptp rx_vcpu
      ∧ (∀ id, (∃ t, t ∈ task_list k ∧ freed_by t id) →
           ptr_list (vcpu_ept v') !! id = None)
      ∧ (∀ id, ¬ (∃ t, t ∈ task_list k ∧ freed_by t id) →
           ptr_list (vcpu_ept v') !! id
           = ptr_list (vcpu_ept rx_vcpu) !! id)
      ∧ (∀ c, c ≠ 0%nat →
           views_of (ksm_sandbox_exit 0 k m).2.1 c = views_of k c)
      ∧ task_list (ksm_sandbox_exit 0 k m).2.1 = task_list k.
Proof.
  intros k m. split; [reflexivity|].
  apply (ksm_sandbox_exit_views 0 k m rx_vcpu). reflexivity.
Defined.

Lemma ksm_sandbox_exit_frees_witness :
  NoDup (mm_pool mm_paged) ∧ NoDup (mm_pages mm_paged)
  ∧ (let m' := (ksm_sandbox_exit 0 k_paged mm_paged).2.2 in
     (ksm_sandbox_exit 0 k_paged mm_paged).1 = 0
     ∧ mm_windows m' = mm_windows mm_paged
     ∧ mm_supply m' = mm_supply mm_paged
     ∧ (∀ t, t ∈ task_list k_paged → sa_self t ∉ mm_pool m')
     ∧ (∀ t p, t ∈ task_list k_paged → p ∈ sa_pages t →
          cow_hva p ∉ mm_pages m')
     ∧ (∀ x, x ∈ mm_pool mm_paged →
          x ∉ (sa_self <$> task_list k_paged) → x ∈ mm_pool m')).
Proof.
  assert (NoDup (mm_pool mm_paged)) as Hpool.
  { apply (bool_decide_unpack _). by vm_compute. }
  assert (NoDup (mm_pages mm_paged)) as Hpages.
  { apply (bool_decide_unpack _). by vm_compute. }
  split; [exact Hpool|]. split; [exact Hpages|].
  apply (ksm_sandbox_exit_frees 0 k_paged mm_paged Hpool Hpages).
Defined.

Lemma ksm_sandbox_then_free_witness :
  let m := mm_boot [0xffff880000300000] in
  let m1 := mm_task42 [] in
  EINVAL ≠ 0 ∧ ENOENT ≠ 0 ∧ ERR_NOMEM ≠ 0
  ∧ (∀ p, head (mm_supply m) = Some p → p ∉ (sa_self <$> task_list k_boot))
  ∧ ksm_sandbox k_boot m 42 = (0, (k_reg, m1))
  ∧ ∃ t,
      last (task_list k_reg) = Some t
      ∧ sa_pid t = 42
      ∧ (free_sa_task 1 t (k_reg, m1)).1 = k_boot
      ∧ mm_pool (free_sa_task 1 t (k_reg, m1)).2 = mm_pool m
      ∧ mm_pages (free_sa_task 1 t (k_reg, m1)).2 = mm_pages m
      ∧ mm_windows (free_sa_task 1 t (k_reg, m1)).2 = mm_windows m.
Proof.
  intros m m1. destruct error_codes_nonzero as (He1 & He2 & He3).
  assert (∀ p, head (mm_supply m) = Some p →
               p ∉ (sa_self <$> task_list k_boot)) as Hfresh.
  { intros p _. apply not_elem_of_nil. }
  split; [exact He1|]. split; [exact He2|]. split; [exact He3|].
  split; [exact Hfresh|]. split; [reflexivity|].
  apply (ksm_sandbox_then_free 1 k_boot m 42 k_reg m1 He1 He2 He3 Hfresh).
  reflexivity.
Defined.

Lemma free_sa_task_unregisters_witness :
  let t := task42 [1; 512; 512; 512] [] in
  let m := mm_task42 [] in
  NoDup (task_list k_core0)
  ∧ (∀ t', t' ∈ task_list k_core0 → sa_pid t' = sa_pid t → t' = t)
  ∧ (let k' := (free_sa_task 0 t (k_core0, m)).1 in
     task_list k' = list_del t (task_list k_core0)
     ∧ (t ∉ task_list k')
     ∧ find_sa_task k' (sa_pid t) = None
     ∧ (∀ pid, pid ≠ sa_pid t →
          snd <$> find_sa_task k' pid = snd <$> find_sa_task k_core0 pid)
     ∧ (∀ t', t' ∈ task_list k_core0 → t' ≠ t → t' ∈ task_list k')).
Proof.
  intros t m.
  assert (NoDup (task_list k_core0)) as Hnd by apply NoDup_singleton.
  assert (∀ t', t' ∈ task_list k_core0 → sa_pid t' = sa_pid t → t' = t)
    as Hone.
  { intros t' Hin%list_elem_of_singleton _. exact Hin. }
  split; [exact Hnd|]. split; [exact Hone|].
  apply (free_sa_task_unregisters 0 k_core0 m t Hnd Hone).
Defined.

Lemma handle_ept_halts_iff_witness :
  let t := task42 [1; 512; 512; 512] [] in
  let m := mm_task42 copy_supply in
  find_sa_task k_core0 42 = Some (0%nat, t)
  ∧ vcpu_list k_core0 !! 0%nat = Some rx_vcpu
  ∧ (ksm_sandbox_handle_ept 0 42 3 0x2000 0x402000 0 5 2 false 0 k_core0 m
     = Bug
     ↔ ¬ (task_eptp 0 t = Some 0
          ∧ 0 ≠ EPT_MAX_EPTP_LIST
          ∧ is_Some (ptr_list (vcpu_ept rx_vcpu) !! 0))).
Proof.
  intros t m. split; [reflexivity|]. split; [reflexivity|].
  apply (handle_ept_halts_iff 0 42 3 0x2000 0x402000 0 5 2 false 0 k_core0 m
           0 t rx_vcpu); reflexivity.
Defined.

Lemma handle_ept_frame_witness :
  let t := task42 [1; 512; 512; 512] [] in
  let m := mm_task42 copy_supply in
  let r := {| handled := true; invd := true; eptp_switch := 0;
              exit_ksm := k_widened; exit_mm := m |} in
  find_sa_task k_core0 42 = Some (0%nat, t)
  ∧ ksm_sandbox_handle_ept 0 42 3 0x2000 0x402000 1 5 2 false 0 k_core0 m
    = Ret r
  ∧ ∃ v v',
      vcpu_list k_core0 !! 0%nat = Some v
      ∧ vcpu_list (exit_ksm r) !! 0%nat = Some v'
      ∧ root_eptp v' = root_eptp v
      ∧ eptp_switch r = 0
      ∧ (∀ c, c ≠ 0%nat →
           vcpu_list (exit_ksm r) !! c = vcpu_list k_core0 !! c)
      ∧ (∀ id gpa',
           id ≠ 1 ∨ Z.shiftr gpa' PAGE_SHIFT ≠ Z.shiftr 0x2000 PAGE_SHIFT →
           ept_pte (vcpu_ept v') id gpa' = ept_pte (vcpu_ept v) id gpa')
      ∧ (handled r = true →
         invd r = true
         ∧ ∃ x, ept_pte (vcpu_ept v') 1 0x2000 = Some x
                ∧ epte_ar x = Z.lor 5 2)
      ∧ (handled r = false → exit_ksm r = k_core0 ∧ invd r = false)
      ∧ (∀ j t0, task_list k_core0 !! j = Some t0 →
           ∃ t', task_list (exit_ksm r) !! j = Some t'
                 ∧ sa_self t' = sa_self t0 ∧ sa_pid t' = sa_pid t0
                 ∧ sa_pgd t' = sa_pgd t0 ∧ sa_eptp t' = sa_eptp t0
                 ∧ (sa_pages t' = sa_pages t0
                    ∨ ∃ p, sa_pages t' = list_add (sa_pages t0) p
                           ∧ cow_gpa p = 0x2000)
                 ∧ (j ≠ 0%nat → t' = t0)).
Proof.
  intros t m r. split; [reflexivity|]. split; [reflexivity|].
  apply (handle_ept_frame 0 42 3 0x2000 0x402000 1 5 2 false 0 k_core0 m
           0 t r); reflexivity.
Defined.

Lemma handle_ept_keeps_frames_witness :
  let m := mm_task42 copy_supply in
  let r := {| handled := true; invd := true; eptp_switch := 0;
              exit_ksm := k_widened; exit_mm := m |} in
  Z.land 1 EPT_ACCESS_WRITE = 0
  ∧ ksm_sandbox_handle_ept 0 42 3 0x2000 0x402000 1 5 2 false 0 k_core0 m
    = Ret r
  ∧ (handled r = true
     ∧ task_list (exit_ksm r) = task_list k_core0
     ∧ exit_mm r = m
     ∧ ∀ c v v' id gpa',
         vcpu_list k_core0 !! c = Some v →
         vcpu_list (exit_ksm r) !! c = Some v' →
         epte_pfn <$> ept_pte (vcpu_ept v') id gpa'
         = epte_pfn <$> ept_pte (vcpu_ept v) id gpa').
Proof.
  intros m r. split; [reflexivity|]. split; [reflexivity|].
  apply (handle_ept_keeps_frames 0 42 3 0x2000 0x402000 1 5 2 false 0
           k_core0 m r); reflexivity.
Defined.

Lemma boot_default_live :
  ∀ cpu v, vcpu_list k_boot !! cpu = Some v →
           is_Some (ptr_list (vcpu_ept v) !! EPTP_DEFAULT).
Proof.
  intros [|[|cpu]] v; simpl; [intros [= <-]; by eexists..|done].
Qed.

Lemma sandbox_views_isolated_witness :
  let m := mm_boot [0xffff880000300000] in
  (∀ cpu v, vcpu_list k_boot !! cpu = Some v →
            is_Some (ptr_list (vcpu_ept v) !! EPTP_DEFAULT))
  ∧ run events_42 ((ksm_sandbox_init k_boot).2, m)
    = Ret (k_both, mm_task42 [])
  ∧ views_inv k_both.
Proof.
  intros m. split; [exact boot_default_live|]. split; [reflexivity|].
  apply (sandbox_views_isolated k_boot m events_42 k_both (mm_task42 [])
           boot_default_live).
  reflexivity.
Defined.

Lemma handle_ept_own_view_returns_witness :
  let m := mm_boot [0xffff880000300000] in
  let t := task42 [1; 1; 512; 512] [] in
  (∀ cpu v, vcpu_list k_boot !! cpu = Some v →
            is_Some (ptr_list (vcpu_ept v) !! EPTP_DEFAULT))
  ∧ run events_42 ((ksm_sandbox_init k_boot).2, m)
    = Ret (k_both, mm_task42 [])
  ∧ find_sa_task k_both 42 = Some (0%nat, t)
  ∧ task_eptp 1 t = Some 1
  ∧ 1 ≠ EPT_MAX_EPTP_LIST
  ∧ ∃ r,
      ksm_sandbox_handle_ept 1 42 3 0x3000 0x401000 1 5 2 false 0
        k_both (mm_task42 [])
      = Ret r.
Proof.
  intros m t.
  assert (1 ≠ EPT_MAX_EPTP_LIST) as Hne by (vm_compute; lia).
  split; [exact boot_default_live|]. split; [reflexivity|].
  split; [reflexivity|]. split; [reflexivity|]. split; [exact Hne|].
  apply (handle_ept_own_view_returns k_boot m events_42 k_both (mm_task42 [])
           1 42 3 0x3000 0x401000 1 5 2 false 0 0 t boot_default_live);
    [reflexivity|reflexivity|reflexivity|exact Hne].
Defined.

Lemma handle_cr3_keeps_witness :
  ksm_sandbox_handle_cr3 0 0x1000 k_reg = Ret k_core0
  ∧ ∃ v v1,
      vcpu_list k_reg !! 0%nat = Some v
      ∧ vcpu_list k_core0 !! 0%nat = Some v1
      ∧ (∀ id, is_Some (ptr_list (vcpu_ept v) !! id) →
           ptr_list (vcpu_ept v1) !! id = ptr_list (vcpu_ept v) !! id)
      ∧ (∀ c, c ≠ 0%nat → vcpu_list k_core0 !! c = vcpu_list k_reg !! c)
      ∧ length (task_list k_core0) = length (task_list k_reg)
      ∧ (∀ j t, task_list k_reg !! j = Some t →
           ∃ t', task_list k_core0 !! j = Some t'
                 ∧ sa_self t' = sa_self t ∧ sa_pid t' = sa_pid t
                 ∧ sa_pgd t' = sa_pgd t ∧ sa_pages t' = sa_pages t
                 ∧ length (sa_eptp t') = length (sa_eptp t)
                 ∧ (∀ c, c ≠ 0%nat → sa_eptp t' !! c = sa_eptp t !! c)
                 ∧ (∀ c id, sa_eptp t !! c = Some id →
                      id ≠ EPT_MAX_EPTP_LIST → sa_eptp t' !! c = Some id)).
Proof.
  split; [reflexivity|].
  apply (handle_cr3_keeps 0 0x1000 k_reg k_core0). reflexivity.
Defined.

Lemma copy_page_success_effect_witness :
  let t := task42 [512; 1; 512; 512] [] in
  let t' := task42 [512; 1; 512; 512] [page_2000] in
  let m := mm_task42 copy_supply in
  ksm_sandbox_copy_page t 0x2000 m = (Some page_2000, t', mm_paged)
  ∧ (cow_gpa page_2000 = 0x2000
     ∧ cow_hpa page_2000 = __pa (cow_hva page_2000)
     ∧ t' = with_pages t (list_add (sa_pages t) page_2000)
     ∧ mm_pool mm_paged = cow_self page_2000 :: mm_pool m
     ∧ mm_pages mm_paged = cow_hva page_2000 :: mm_pages m
     ∧ (∃ h, mm_windows mm_paged
             = {| w_hva := h; w_gpa := 0x2000; w_size := PAGE_SIZE |}
               :: mm_windows m)
     ∧ mm_guest mm_paged = mm_guest m
     ∧ (∀ i, 0 ≤ i < PAGE_SIZE →
          mm_host mm_paged (cow_hva page_2000 + i) = mm_guest m (0x2000 + i))
     ∧ (∀ a, ¬ (cow_hva page_2000 ≤ a < cow_hva page_2000 + PAGE_SIZE) →
          mm_host mm_paged a = mm_host m a)).
Proof.
  intros t t' m. split; [reflexivity|].
  apply (copy_page_success_effect t 0x2000 m page_2000 t' mm_paged).
  reflexivity.
Defined.

End MoreScenarios.
